(** * ical.tzif.timezoneinfo: locating and reading TZif timezone data

    A shallow embedding of [src/ical/tzif/timezoneinfo.py].  The module
    resolves an IANA timezone key to a decoded [TimezoneInfo]: it checks
    the key against the system catalog, looks for a TZif file below the
    directories of [zoneinfo.TZPATH], and falls back to the [tzdata]
    package.  Both catalogs are memoised with [functools.cache].

    Layout of the development:
    - [PyStr]: the string operations the Python code uses ([in],
      [replace], [rsplit], [strip], [os.path.join]);
    - [Py]: exceptions, results, the memos, the call log and the monad in
      which the effectful functions are written;
    - [Timezoneinfo]: the functions of the module, one definition each;
    - [Resolver]: the vocabulary of the properties (catalogs, call logs,
      sequences of calls);
    - [Scenario]: sample hosts on which the functions are run;
    - [PyStrFacts], [KeyMapping], [PyFacts], [CatalogFacts], [ReadFacts]:
      the properties, from the strings up to [read];
    - [Hosts]: the properties at work on the sample hosts;
    - [MoreStrFacts], [MoreFacts], [MoreReadFacts], [MoreHosts]: further
      properties of the search, the mapping, the memos and [read].

    The decoder [read_tzif] and the record [TimezoneInfo] belong to sibling
    modules; [read] is parameterised by them.  Files, search paths and
    packages are those of the host at the time of each call ([Py.Env]); a
    callee may raise, and what it raises travels as Python has it. *)

From Stdlib Require Import Ascii String List Bool Arith Lia.
From stdpp Require Import base gmap strings list.

Open Scope string_scope.
Open Scope list_scope.

(** ** Python strings

    A [str] is modelled as a Rocq [string]; one [ascii] stands for one
    character whose code point is below 256. *)
Module PyStr.

(** [c in s] for a one-character [c]. *)
Fixpoint contains (c : ascii) (s : string) : bool :=
  match s with
  | EmptyString => false
  | String a s' => Ascii.eqb a c || contains c s'
  end.

(** [s.replace(old, new)] for one-character [old] and [new]. *)
Fixpoint replace (old new : ascii) (s : string) : string :=
  match s with
  | EmptyString => EmptyString
  | String a s' =>
      String (if Ascii.eqb a old then new else a) (replace old new s')
  end.

(** [s.rsplit(sep, 1)] for a one-character [sep]: at most one split, taken
    at the last occurrence of [sep]; a string without [sep] comes back
    whole, as a list of one element. *)
Fixpoint rsplit1 (sep : ascii) (s : string) : list string :=
  match s with
  | EmptyString => [EmptyString]
  | String a s' =>
      match rsplit1 sep s' with
      | [t] => if Ascii.eqb a sep then [EmptyString; t] else [String a t]
      | h :: rest => String a h :: rest
      | [] => []
      end
  end.

(** [s.startswith(prefix)]. *)
Fixpoint startswith (prefix s : string) : bool :=
  match prefix, s with
  | EmptyString, _ => true
  | String a p', String b s' => Ascii.eqb a b && startswith p' s'
  | String _ _, EmptyString => false
  end.

(** [s.endswith(c)] for a one-character [c]. *)
Fixpoint endswith (c : ascii) (s : string) : bool :=
  match s with
  | EmptyString => false
  | String a EmptyString => Ascii.eqb a c
  | String _ s' => endswith c s'
  end.

(** [s.removeprefix(prefix)], with [None] when [s] does not start with
    [prefix]. *)
Fixpoint strip_prefix (prefix s : string) : option string :=
  match prefix, s with
  | EmptyString, _ => Some s
  | String a p', String b s' =>
      if Ascii.eqb a b then strip_prefix p' s' else None
  | String _ _, EmptyString => None
  end.

(** [c.isspace()] on the code points below 256: TAB to CR, FS to US,
    space, NEL and NBSP. *)
Definition isspace (c : ascii) : bool :=
  let n := nat_of_ascii c in
  (((9 <=? n) && (n <=? 13)) || ((28 <=? n) && (n <=? 32))
   || (n =? 133) || (n =? 160))%nat.

Fixpoint lstrip (s : string) : string :=
  match s with
  | EmptyString => EmptyString
  | String a s' => if isspace a then lstrip s' else s
  end.

Fixpoint rstrip (s : string) : string :=
  match s with
  | EmptyString => EmptyString
  | String a s' =>
      match rstrip s' with
      | EmptyString => if isspace a then EmptyString else String a EmptyString
      | t => String a t
      end
  end.

(** [s.strip()]. *)
Definition strip (s : string) : string := rstrip (lstrip s).

(** [os.path.join(a, b)] of [posixpath], for two components: an absolute
    [b] discards [a]; otherwise the two are glued with one ["/"] unless [a]
    is empty or already ends with one. *)
Definition os_path_join (a b : string) : string :=
  if startswith "/" b then b
  else if (String.eqb a "" || endswith "/" a) then a +:+ b
  else a +:+ "/" +:+ b.

End PyStr.

(** ** Exceptions, results and the effect monad *)
Module Py.

(** The exceptions that can travel through the module.  [TimezoneInfoError]
    is the class the module declares; the others are raised by the callees
    ([importlib.resources], [open], tuple unpacking, the TZif decoder). *)
Inductive exn : Type :=
| TimezoneInfoError (msg : string)
| ModuleNotFoundError
| FileNotFoundError
| ValueError
| OtherException (cls : string).

(** What a call produces: a value, or a raised exception. *)
Inductive result (A : Type) : Type :=
| Ok (a : A)
| Raise (e : exn).
Arguments Ok {A} a.
Arguments Raise {A} e.

Definition bytes : Type := list Byte.byte.

(** The two memoised catalogs: [_read_system_timezones] and
    [_read_tzdata_timezones]. *)
Inductive catalog : Type := System | Tzdata.

(** The process-wide state: the memo of each [functools.cache] wrapper,
    empty until the wrapped function has returned once. *)
Record Cache : Type := {
  system_cache : option (gset string);
  tzdata_cache : option (gset string)
}.

Definition empty_cache : Cache :=
  {| system_cache := None; tzdata_cache := None |}.

Definition cache_get (c : catalog) (st : Cache) : option (gset string) :=
  match c with
  | System => system_cache st
  | Tzdata => tzdata_cache st
  end.

Definition cache_set (c : catalog) (v : gset string) (st : Cache) : Cache :=
  match c with
  | System => {| system_cache := Some v; tzdata_cache := tzdata_cache st |}
  | Tzdata => {| system_cache := system_cache st; tzdata_cache := Some v |}
  end.

(** The call log: one entry per call that leaves the module, in program
    order, and one per invocation of a memoised catalog function. *)
Inductive event : Type :=
| Enumerate (c : catalog)
| AvailableTimezones
| IsFile (path : string)
| OpenFile (path : string)
| ResourcesFiles (package : string)
| ResourceOpen (package resource : string).

(** A computation reads and updates the caches, appends to the call log and
    either returns or raises. *)
Definition M (A : Type) : Type := Cache -> result A * Cache * list event.

Definition ret {A} (a : A) : M A := fun st => (Ok a, st, []).

Definition raise {A} (e : exn) : M A := fun st => (Raise e, st, []).

Definition bind {A B} (m : M A) (k : A -> M B) : M B :=
  fun st =>
    match m st with
    | (Ok a, st1, t1) =>
        match k a st1 with
        | (r, st2, t2) => (r, st2, t1 ++ t2)
        end
    | (Raise e, st1, t1) => (Raise e, st1, t1)
    end.

(** [try: m except ...: handler]; the handler decides what it catches and
    re-raises the rest. *)
Definition try_except {A} (m : M A) (handler : exn -> M A) : M A :=
  fun st =>
    match m st with
    | (Ok a, st1, t1) => (Ok a, st1, t1)
    | (Raise e, st1, t1) =>
        match handler e st1 with
        | (r, st2, t2) => (r, st2, t1 ++ t2)
        end
    end.

Definition emit (ev : event) : M unit := fun st => (Ok tt, st, [ev]).

Definition lift {A} (r : result A) : M A := fun st => (r, st, []).

Definition get_cache (c : catalog) : M (option (gset string)) :=
  fun st => (Ok (cache_get c st), st, []).

Definition put_cache (c : catalog) (v : gset string) : M unit :=
  fun st => (Ok tt, cache_set c v st, []).

(** [@functools.cache] on a function without arguments: the body runs when
    the memo is empty, and its value is memoised only when it returns.
    A call is run from its lookup to its store before the next call starts:
    this is the wrapper as one caller after another meets it.  The wrapper
    takes no lock around the body, and callers that overlap in their first
    call are not described here. *)
Definition cache (c : catalog) (body : M (gset string)) : M (gset string) :=
  bind (emit (Enumerate c)) (fun _ =>
  bind (get_cache c) (fun memo =>
  match memo with
  | Some v => ret v
  | None => bind body (fun v => bind (put_cache c v) (fun _ => ret v))
  end)).

(** A computation keeps the memos when whatever is memoised before it is
    still memoised, unchanged, after it. *)
Definition keeps_memos {A} (m : M A) : Prop :=
  forall st r st1 t1, m st = (r, st1, t1) ->
  forall c v, cache_get c st = Some v -> cache_get c st1 = Some v.

(** A directory of package resources, as [importlib.resources.files]
    returns it: reading the lines of a text resource and reading the bytes
    of a binary one. *)
Record Traversable : Type := {
  (* [dir.joinpath(name).open("r", encoding="utf-8")] and [readlines()] *)
  open_text_readlines : string -> result (list string);
  (* [dir.joinpath(name).open("rb")] and [read()] *)
  open_binary_read : string -> result bytes
}.

(** What the module sees of its host at the time of a call. *)
Record Env : Type := {
  (* [zoneinfo.available_timezones()]; it reads the list of zones of
     [tzdata] and walks the search paths, and what it fails on there other
     than [ImportError] and [FileNotFoundError] it raises *)
  available_timezones : result (gset string);
  (* [zoneinfo.TZPATH] *)
  TZPATH : list string;
  (* [os.path.isfile(path)] *)
  isfile : string -> bool;
  (* [open(path, "rb")] and [read()] *)
  open_read : string -> result bytes;
  (* [importlib.resources.files(package)]; an absent package raises
     [ModuleNotFoundError] *)
  resources_files : string -> result Traversable
}.

End Py.

(** ** The module [ical.tzif.timezoneinfo] *)
Module Timezoneinfo.
Import PyStr Py.

Notation "x <- m ;; k" := (bind m (fun x => k))
  (at level 100, m at next level, right associativity, only parsing).
Notation "m ;;; k" := (bind m (fun _ => k))
  (at level 100, right associativity, only parsing).

(** [_read_system_timezones]: the memoised [zoneinfo.available_timezones()]. *)
Definition _read_system_timezones (env : Env) : M (gset string) :=
  cache System
    (emit AvailableTimezones ;;;
     lift (available_timezones env)).

(** The loop of [_find_tzfile] over the remaining search paths. *)
Fixpoint find_in (env : Env) (search_paths : list string) (key : string)
  : M (option string) :=
  match search_paths with
  | [] => ret None
  | search_path :: rest =>
      let filepath := os_path_join search_path key in
      emit (IsFile filepath) ;;;
      if isfile env filepath then ret (Some filepath)
      else find_in env rest key
  end.

(** [_find_tzfile]: the first path [os.path.join(search_path, key)] that is
    a file, over [zoneinfo.TZPATH] in order. *)
Definition _find_tzfile (env : Env) (key : string) : M (option string) :=
  find_in env (TZPATH env) key.

(** [resources.files(package)]. *)
Definition files (env : Env) (package : string) : M Traversable :=
  emit (ResourcesFiles package) ;;;
  lift (resources_files env package).

(** [_read_tzdata_timezones]: the stripped lines of the resource [zones] of
    the package [tzdata], memoised; an absent package gives the empty set. *)
Definition _read_tzdata_timezones (env : Env) : M (gset string) :=
  cache Tzdata
    (try_except
       (tzdata <- files env "tzdata" ;;
        emit (ResourceOpen "tzdata" "zones") ;;;
        lines <- lift (open_text_readlines tzdata "zones") ;;
        ret (list_to_set (map strip lines)))
       (fun err =>
          match err with
          | ModuleNotFoundError => ret ∅
          | _ => raise err
          end)).

(** [_iana_key_to_resource]: the package and the resource file of a key. *)
Definition _iana_key_to_resource (key : string) : result (string * string) :=
  if negb (contains "/" key) then Ok ("tzdata.zoneinfo", key)
  else
    match rsplit1 "/" key with
    | [package_loc; resource] =>
        Ok ("tzdata.zoneinfo." +:+ replace "/" "." package_loc, resource)
    | _ => Raise ValueError
    end.

Section Read.

(** The decoded record and the TZif decoder come from the sibling modules
    [.model] and [.tzif]; [read] only passes bytes to the decoder and hands
    its outcome back. *)
Variable TimezoneInfo : Type.
Variable read_tzif : bytes -> result TimezoneInfo.

(** [read]: the TZif record of a key, from the system files when there is
    one, otherwise from the [tzdata] package. *)
Definition read (env : Env) (key : string) : M TimezoneInfo :=
  system_timezones <- _read_system_timezones env ;;
  if negb (bool_decide (key ∈ system_timezones)) then
    raise (TimezoneInfoError
             ("Unable to find timezone in system timezones: " +:+ key))
  else
    tzfile <- _find_tzfile env key ;;
    match tzfile with
    | Some tzfile =>
        emit (OpenFile tzfile) ;;;
        data <- lift (open_read env tzfile) ;;
        lift (read_tzif data)
    | None =>
        tzdata_timezones <- _read_tzdata_timezones env ;;
        if negb (bool_decide (key ∈ tzdata_timezones)) then
          raise (TimezoneInfoError ("Unable to find timezone: " +:+ key))
        else
          pr <- lift (_iana_key_to_resource key) ;;
          let '(package, resource) := pr in
          try_except
            (dir <- files env package ;;
             emit (ResourceOpen package resource) ;;;
             data <- lift (open_binary_read dir resource) ;;
             lift (read_tzif data))
            (fun err =>
               match err with
               | ModuleNotFoundError =>
                   raise (TimezoneInfoError
                            ("Unable to load tzdata module: " +:+ key))
               | FileNotFoundError =>
                   raise (TimezoneInfoError
                            ("Unable to read tzdata file: " +:+ key))
               | _ => raise err
               end)
    end.

End Read.

End Timezoneinfo.


(** ** Vocabulary of the properties *)
Module Resolver.
Import PyStr Py Timezoneinfo.

(** What [_read_system_timezones] answers with in a given state: the
    memoised set, or, while nothing is memoised, what
    [zoneinfo.available_timezones()] returns or raises on the host. *)
Definition host_catalog (env : Env) (st : Cache) : result (gset string) :=
  match system_cache st with
  | Some v => Ok v
  | None => available_timezones env
  end.

(** The calls [_read_system_timezones] makes in a given state. *)
Definition system_log (st : Cache) : list event :=
  Enumerate System ::
  match system_cache st with
  | Some _ => []
  | None => [AvailableTimezones]
  end.

(** The file tests of a search through [search_paths]. *)
Definition search_log (search_paths : list string) (key : string)
  : list event :=
  map (fun search_path => IsFile (os_path_join search_path key)) search_paths.

(** The calls that consult the [tzdata] catalog or fetch from the package. *)
Definition touches_tzdata (ev : event) : bool :=
  match ev with
  | Enumerate Tzdata | ResourcesFiles _ | ResourceOpen _ _ => true
  | _ => false
  end.

(** The calls that search or open the host's files. *)
Definition touches_host_files (ev : event) : bool :=
  match ev with
  | IsFile _ | OpenFile _ => true
  | _ => false
  end.

(** The call with which the computation of a catalog starts. *)
Definition computes (c : catalog) (ev : event) : bool :=
  match c, ev with
  | System, AvailableTimezones => true
  | Tzdata, ResourcesFiles package => String.eqb package "tzdata"
  | _, _ => false
  end.

(** The memoised function of each catalog. *)
Definition enumerate (c : catalog) : Env -> M (gset string) :=
  match c with
  | System => _read_system_timezones
  | Tzdata => _read_tzdata_timezones
  end.

(** The key a package and a resource stand for: the package path below
    [tzdata.zoneinfo], its dots turned into slashes, joined to the resource
    name with a slash; the root package contributes no directory. *)
Definition resource_to_key (package resource : string) : option string :=
  match strip_prefix "tzdata.zoneinfo" package with
  | Some EmptyString => Some resource
  | Some (String sep below) =>
      if Ascii.eqb sep "."
      then Some (replace "." "/" below +:+ "/" +:+ resource)
      else None
  | None => None
  end.

(** The messages of the four [raise] statements of [read]. *)
Definition read_messages : list string :=
  [ "Unable to find timezone in system timezones: ";
    "Unable to find timezone: ";
    "Unable to load tzdata module: ";
    "Unable to read tzdata file: " ].

Definition is_TimezoneInfoError (e : exn) : bool :=
  match e with
  | TimezoneInfoError _ => true
  | _ => false
  end.

(** A process is a sequence of calls into the module, each made in the
    environment of its time; only the caches connect one call to the next. *)
Inductive call : Type :=
| CallReadSystemTimezones
| CallReadTzdataTimezones
| CallFindTzfile (key : string)
| CallRead (key : string).

Section Process.

Variable TimezoneInfo : Type.
Variable read_tzif : bytes -> result TimezoneInfo.

Definition perform (env : Env) (c : call) (st : Cache) : Cache * list event :=
  match c with
  | CallReadSystemTimezones =>
      match _read_system_timezones env st with (_, st', t) => (st', t) end
  | CallReadTzdataTimezones =>
      match _read_tzdata_timezones env st with (_, st', t) => (st', t) end
  | CallFindTzfile key =>
      match _find_tzfile env key st with (_, st', t) => (st', t) end
  | CallRead key =>
      match read TimezoneInfo read_tzif env key st with
      | (_, st', t) => (st', t)
      end
  end.

(** What the handlers around the fetch in [read] make of an exception. *)
Definition translate (key : string) (err : exn) : exn :=
  match err with
  | ModuleNotFoundError =>
      TimezoneInfoError ("Unable to load tzdata module: " +:+ key)
  | FileNotFoundError =>
      TimezoneInfoError ("Unable to read tzdata file: " +:+ key)
  | _ => err
  end.

(** The outcome of fetching and decoding a resource of the package. *)
Definition fetch_outcome (env : Env) (key package resource : string)
  : result TimezoneInfo :=
  match resources_files env package with
  | Raise err => Raise (translate key err)
  | Ok dir =>
      match open_binary_read dir resource with
      | Raise err => Raise (translate key err)
      | Ok data =>
          match read_tzif data with
          | Ok info => Ok info
          | Raise err => Raise (translate key err)
          end
      end
  end.

(** The calls of that fetch. *)
Definition fetch_log (env : Env) (package resource : string) : list event :=
  ResourcesFiles package ::
  match resources_files env package with
  | Ok _ => [ResourceOpen package resource]
  | Raise _ => []
  end.

(** The first search path that holds a file for the key, and the path of
    that file. *)
Definition first_host_file (env : Env) (key filepath : string) : Prop :=
  exists before d after,
    TZPATH env = before ++ d :: after
    /\ Forall (fun p => isfile env (os_path_join p key) = false) before
    /\ isfile env (os_path_join d key) = true
    /\ filepath = os_path_join d key.

(** No search path holds a file for the key. *)
Definition no_host_file (env : Env) (key : string) : Prop :=
  Forall (fun p => isfile env (os_path_join p key) = false) (TZPATH env).

(** The key is in the host catalog that [read] gets in this state. *)
Definition known_to_host (env : Env) (st : Cache) (key : string) : Prop :=
  exists system_timezones,
    host_catalog env st = Ok system_timezones /\ key ∈ system_timezones.

(** The key is in the tzdata catalog that the enumeration returns in this
    state. *)
Definition known_to_tzdata (env : Env) (st : Cache) (key : string) : Prop :=
  exists tzdata_timezones st2 t2,
    _read_tzdata_timezones env st = (Ok tzdata_timezones, st2, t2)
    /\ key ∈ tzdata_timezones.

(** The exceptions of its callees that [read] lets through, each with the
    call that raises it on the way [read] takes for this key in this state:
    - [zoneinfo.available_timezones()], called while nothing is memoised;
    - for a key of the host catalog with a host file: the opening of that
      file, or the decoder on its bytes;
    - for a key of the host catalog without a host file: the import of
      [tzdata] or the reading of its list of zones, while nothing is
      memoised (never [ModuleNotFoundError], which gives the empty catalog);
    - for such a key that the tzdata catalog has: the import of the package
      of the key, the opening of its resource, or the decoder on its bytes,
      when what they raise is neither [ModuleNotFoundError] nor
      [FileNotFoundError] (these two the handlers of [read] replace). *)
Inductive passed_on (env : Env) (key : string) (st : Cache) (err : exn)
  : Prop :=
| from_available_timezones :
    system_cache st = None ->
    available_timezones env = Raise err ->
    passed_on env key st err
| from_open (filepath : string) :
    known_to_host env st key ->
    first_host_file env key filepath ->
    open_read env filepath = Raise err ->
    passed_on env key st err
| from_read_tzif_of_file (filepath : string) (data : bytes) :
    known_to_host env st key ->
    first_host_file env key filepath ->
    open_read env filepath = Ok data ->
    read_tzif data = Raise err ->
    passed_on env key st err
| from_files_tzdata :
    known_to_host env st key ->
    no_host_file env key ->
    tzdata_cache st = None ->
    resources_files env "tzdata" = Raise err ->
    err <> ModuleNotFoundError ->
    passed_on env key st err
| from_zones (dir : Traversable) :
    known_to_host env st key ->
    no_host_file env key ->
    tzdata_cache st = None ->
    resources_files env "tzdata" = Ok dir ->
    open_text_readlines dir "zones" = Raise err ->
    err <> ModuleNotFoundError ->
    passed_on env key st err
| from_files_package (package resource : string) :
    known_to_host env st key ->
    no_host_file env key ->
    known_to_tzdata env st key ->
    _iana_key_to_resource key = Ok (package, resource) ->
    resources_files env package = Raise err ->
    err <> ModuleNotFoundError ->
    err <> FileNotFoundError ->
    passed_on env key st err
| from_resource (package resource : string) (dir : Traversable) :
    known_to_host env st key ->
    no_host_file env key ->
    known_to_tzdata env st key ->
    _iana_key_to_resource key = Ok (package, resource) ->
    resources_files env package = Ok dir ->
    open_binary_read dir resource = Raise err ->
    err <> ModuleNotFoundError ->
    err <> FileNotFoundError ->
    passed_on env key st err
| from_read_tzif_of_resource
    (package resource : string) (dir : Traversable) (data : bytes) :
    known_to_host env st key ->
    no_host_file env key ->
    known_to_tzdata env st key ->
    _iana_key_to_resource key = Ok (package, resource) ->
    resources_files env package = Ok dir ->
    open_binary_read dir resource = Ok data ->
    read_tzif data = Raise err ->
    err <> ModuleNotFoundError ->
    err <> FileNotFoundError ->
    passed_on env key st err.

Fixpoint process (steps : list (Env * call)) (st : Cache) : Cache :=
  match steps with
  | [] => st
  | (env, c) :: rest => process rest (fst (perform env c st))
  end.

Fixpoint process_log (steps : list (Env * call)) (st : Cache) : list event :=
  match steps with
  | [] => []
  | (env, c) :: rest =>
      snd (perform env c st) ++ process_log rest (fst (perform env c st))
  end.

End Process.

End Resolver.

(** ** Hosts to run the module on *)
Module Scenario.
Import PyStr Py Timezoneinfo Resolver.

(** A stand-in for the decoder that hands the buffer back as it is. *)
Definition raw_read_tzif (data : bytes) : result bytes := Ok data.

Definition oslo_tzif : bytes :=
  [Byte.x54; Byte.x5a; Byte.x69; Byte.x66; Byte.x32].

Definition utc_tzif : bytes :=
  [Byte.x54; Byte.x5a; Byte.x69; Byte.x66; Byte.x00].

Definition no_package : string -> result Traversable :=
  fun _ => Raise ModuleNotFoundError.

(** A host with its own zoneinfo files in the second search path and
    without the [tzdata] package. *)
Definition host_only : Env :=
  {| available_timezones :=
       Ok {[ "UTC"; "Europe/Oslo"; "America/Indiana/Indianapolis" ]};
     TZPATH := ["/usr/share/zoneinfo"; "/usr/lib/zoneinfo"];
     isfile := fun path => String.eqb path "/usr/lib/zoneinfo/Europe/Oslo";
     open_read := fun path =>
       if String.eqb path "/usr/lib/zoneinfo/Europe/Oslo" then Ok oslo_tzif
       else Raise FileNotFoundError;
     resources_files := no_package |}.

(** The directory of the package [tzdata]: the list of zones. *)
Definition tzdata_dir : Traversable :=
  {| open_text_readlines := fun name =>
       if String.eqb name "zones"
       then Ok [String.append "America/Indiana/Indianapolis" (String "010" "");
                String.append "UTC" (String "010" "")]
       else Raise FileNotFoundError;
     open_binary_read := fun _ => Raise FileNotFoundError |}.

(** The directory of the package [tzdata.zoneinfo]: the file of [UTC]. *)
Definition zoneinfo_dir : Traversable :=
  {| open_text_readlines := fun _ => Raise FileNotFoundError;
     open_binary_read := fun name =>
       if String.eqb name "UTC" then Ok utc_tzif
       else Raise FileNotFoundError |}.

(** A directory without files. *)
Definition empty_dir : Traversable :=
  {| open_text_readlines := fun _ => Raise FileNotFoundError;
     open_binary_read := fun _ => Raise FileNotFoundError |}.

(** A host without zoneinfo files of its own and with the [tzdata] package,
    from which the file of Indianapolis has gone. *)
Definition bundled : Env :=
  {| available_timezones :=
       Ok {[ "UTC"; "Europe/Oslo"; "America/Indiana/Indianapolis" ]};
     TZPATH := ["/usr/share/zoneinfo"];
     isfile := fun _ => false;
     open_read := fun _ => Raise FileNotFoundError;
     resources_files := fun package =>
       if String.eqb package "tzdata" then Ok tzdata_dir
       else if String.eqb package "tzdata.zoneinfo" then Ok zoneinfo_dir
       else if String.eqb package "tzdata.zoneinfo.America.Indiana"
            then Ok empty_dir
       else Raise ModuleNotFoundError |}.

(** The same host once the package has been uninstalled. *)
Definition uninstalled : Env :=
  {| available_timezones :=
       Ok {[ "UTC"; "Europe/Oslo"; "America/Indiana/Indianapolis" ]};
     TZPATH := ["/usr/share/zoneinfo"];
     isfile := fun _ => false;
     open_read := fun _ => Raise FileNotFoundError;
     resources_files := no_package |}.

(** A host whose [tzdata] package has lost its list of zones. *)
Definition without_zones : Env :=
  {| available_timezones := Ok {[ "UTC" ]};
     TZPATH := ["/usr/share/zoneinfo"];
     isfile := fun _ => false;
     open_read := fun _ => Raise FileNotFoundError;
     resources_files := fun package =>
       if String.eqb package "tzdata" then Ok empty_dir
       else if String.eqb package "tzdata.zoneinfo" then Ok zoneinfo_dir
       else Raise ModuleNotFoundError |}.

(** A host with the [tzdata] package whose own file of UTC cannot be read
    by the process: the key is known from the list of zones of the package,
    the file is there, and opening it raises [PermissionError]. *)
Definition unreadable_host_file : Env :=
  {| available_timezones := Ok {[ "America/Indiana/Indianapolis"; "UTC" ]};
     TZPATH := ["/usr/share/zoneinfo"];
     isfile := fun path => String.eqb path "/usr/share/zoneinfo/UTC";
     open_read := fun _ => Raise (OtherException "PermissionError");
     resources_files := fun package =>
       if String.eqb package "tzdata" then Ok tzdata_dir
       else if String.eqb package "tzdata.zoneinfo" then Ok zoneinfo_dir
       else Raise ModuleNotFoundError |}.

(** A host on which [zoneinfo.available_timezones()] fails: the list of
    zones of [tzdata] is there and cannot be read. *)
Definition unreadable_zones : Env :=
  {| available_timezones := Raise (OtherException "PermissionError");
     TZPATH := ["/usr/share/zoneinfo"];
     isfile := fun _ => false;
     open_read := fun _ => Raise FileNotFoundError;
     resources_files := fun package =>
       if String.eqb package "tzdata"
       then Ok {| open_text_readlines :=
                    fun _ => Raise (OtherException "PermissionError");
                  open_binary_read := fun _ => Raise FileNotFoundError |}
       else if String.eqb package "tzdata.zoneinfo" then Ok zoneinfo_dir
       else Raise ModuleNotFoundError |}.

(** The catalog of the sample hosts. *)
Definition sample_zones : gset string :=
  {[ "UTC"; "Europe/Oslo"; "America/Indiana/Indianapolis" ]}.

(** The zones that the package of [bundled] lists. *)
Definition bundled_zones : gset string :=
  {[ "America/Indiana/Indianapolis"; "UTC" ]}.

(** The caches after the tzdata catalog has been enumerated on [bundled]. *)
Definition enumerated : Cache :=
  snd (fst (_read_tzdata_timezones bundled empty_cache)).

End Scenario.
(** ** Facts about the string operations *)
Module PyStrFacts.
Import PyStr.

Lemma contains_append c s1 s2 :
  contains c (s1 +:+ s2) = contains c s1 || contains c s2.
Proof.
  induction s1 as [|a s1 IH]; simpl; [reflexivity|].
  rewrite IH. apply orb_assoc.
Qed.

(** Without the separator there is nothing to split. *)
Lemma rsplit1_absent sep s :
  contains sep s = false -> rsplit1 sep s = [s].
Proof.
  induction s as [|a s IH]; simpl; [reflexivity|].
  intros H. apply orb_false_elim in H as [Ha Hs].
  rewrite (IH Hs), Ha. reflexivity.
Qed.

(** The split is taken at the last separator. *)
Lemma rsplit1_last sep g r :
  contains sep r = false ->
  rsplit1 sep (g +:+ String sep r) = [g; r].
Proof.
  intros Hr. induction g as [|a g IH]; simpl.
  - rewrite (rsplit1_absent _ _ Hr), Ascii.eqb_refl. reflexivity.
  - rewrite IH. reflexivity.
Qed.

(** A string that contains the separator decomposes at its last
    occurrence. *)
Lemma contains_last sep s :
  contains sep s = true ->
  exists g r, s = g +:+ String sep r /\ contains sep r = false.
Proof.
  induction s as [|a s IH]; simpl; [discriminate|].
  destruct (contains sep s) eqn:Hs.
  - intros _. destruct (IH eq_refl) as (g & r & -> & Hr).
    exists (String a g), r. split; [reflexivity|exact Hr].
  - rewrite orb_false_r. intros Ha. apply Ascii.eqb_eq in Ha. subst a.
    exists EmptyString, s. split; [reflexivity|exact Hs].
Qed.

(** Replacing [old] by [new] and back is the identity on strings without
    [new]. *)
Lemma replace_back old new s :
  contains new s = false -> replace new old (replace old new s) = s.
Proof.
  induction s as [|a s IH]; simpl; [reflexivity|].
  intros H. apply orb_false_elim in H as [Ha Hs].
  rewrite (IH Hs). f_equal.
  destruct (Ascii.eqb_spec a old) as [->|Hne].
  - rewrite Ascii.eqb_refl. reflexivity.
  - rewrite Ha. reflexivity.
Qed.

Lemma startswith_slash_false_join a b :
  startswith "/" b = false ->
  os_path_join a b = a +:+ b \/ os_path_join a b = a +:+ "/" +:+ b.
Proof.
  intros H. unfold os_path_join. rewrite H.
  destruct (String.eqb a "" || endswith "/" a); [left|right]; reflexivity.
Qed.

End PyStrFacts.

(** ** The key-to-resource mapping *)
Module KeyMapping.
Import PyStr PyStrFacts Py Timezoneinfo Resolver.

Lemma iana_key_no_slash key :
  contains "/" key = false ->
  _iana_key_to_resource key = Ok ("tzdata.zoneinfo", key).
Proof. intros H. unfold _iana_key_to_resource. rewrite H. reflexivity. Qed.

Lemma iana_key_slash group resource :
  contains "/" resource = false ->
  _iana_key_to_resource (group +:+ "/" +:+ resource)
  = Ok ("tzdata.zoneinfo." +:+ replace "/" "." group, resource).
Proof.
  intros H. unfold _iana_key_to_resource.
  rewrite contains_append. simpl contains at 2. rewrite orb_true_r. simpl negb.
  cbv iota. simpl (String.append "/" resource).
  rewrite (rsplit1_last _ _ _ H). reflexivity.
Qed.

(** The mapping never raises, and its image is described by the last slash
    of the key. *)
Lemma iana_key_cases key :
  exists package resource,
    _iana_key_to_resource key = Ok (package, resource)
    /\ contains "/" resource = false
    /\ ((key = resource /\ package = "tzdata.zoneinfo")
        \/ (exists group,
              key = group +:+ "/" +:+ resource
              /\ package = "tzdata.zoneinfo." +:+ replace "/" "." group)).
Proof.
  destruct (contains "/" key) eqn:Hk.
  - destruct (contains_last _ _ Hk) as (g & r & -> & Hr).
    exists ("tzdata.zoneinfo." +:+ replace "/" "." g), r.
    split; [exact (iana_key_slash g r Hr)|].
    split; [exact Hr|]. right. exists g. split; reflexivity.
  - exists "tzdata.zoneinfo", key.
    split; [exact (iana_key_no_slash key Hk)|].
    split; [exact Hk|]. left. split; reflexivity.
Qed.

(** C4: for every key, [_iana_key_to_resource] returns as resource the part
    of the key after its last slash (the whole key when it has none) and as
    package [tzdata.zoneinfo] extended by the part before the last slash
    with its slashes turned into dots; ["America/Indiana/Indianapolis"]
    maps to the package ["tzdata.zoneinfo.America.Indiana"] and the
    resource ["Indianapolis"]. *)
Theorem iana_key_to_resource_last_slash :
  (forall key,
     exists package resource,
       _iana_key_to_resource key = Ok (package, resource)
       /\ contains "/" resource = false
       /\ ((key = resource /\ package = "tzdata.zoneinfo")
           \/ (exists group,
                 key = group +:+ "/" +:+ resource
                 /\ package = "tzdata.zoneinfo." +:+ replace "/" "." group)))
  /\ _iana_key_to_resource "America/Indiana/Indianapolis"
     = Ok ("tzdata.zoneinfo.America.Indiana", "Indianapolis").
Proof. split; [exact iana_key_cases | reflexivity]. Qed.

Lemma resource_to_key_root resource :
  resource_to_key "tzdata.zoneinfo" resource = Some resource.
Proof. reflexivity. Qed.

Lemma resource_to_key_below below resource :
  resource_to_key ("tzdata.zoneinfo." +:+ below) resource
  = Some (replace "." "/" below +:+ "/" +:+ resource).
Proof. reflexivity. Qed.

(** C10: on a key without a dot the mapping can be undone: taking the
    package path below [tzdata.zoneinfo], turning its dots into slashes and
    joining the resource name gives the key back; a key without a slash maps
    to the package [tzdata.zoneinfo] itself, with the key as resource. *)
Theorem iana_key_to_resource_round_trip (key : string) :
  contains "." key = false ->
  exists package resource,
    _iana_key_to_resource key = Ok (package, resource)
    /\ resource_to_key package resource = Some key
    /\ (contains "/" key = false ->
        package = "tzdata.zoneinfo" /\ resource = key).
Proof.
  intros Hdot.
  destruct (iana_key_cases key) as (package & resource & Hrun & Hres & Hshape).
  exists package, resource. split; [exact Hrun|].
  destruct Hshape as [[-> ->] | (group & -> & ->)].
  - split; [apply resource_to_key_root|]. intros _. split; reflexivity.
  - rewrite contains_append in Hdot. apply orb_false_elim in Hdot as [Hg _].
    split.
    + rewrite resource_to_key_below, (replace_back _ _ _ Hg). reflexivity.
    + rewrite contains_append. simpl. rewrite orb_true_r. discriminate.
Qed.

(** The dot-free side condition cannot be dropped: two keys that differ only
    in a dot against a slash share their package and resource. *)
Lemma iana_key_to_resource_dot_collision :
  _iana_key_to_resource "a.b/c" = _iana_key_to_resource "a/b/c".
Proof. reflexivity. Qed.

End KeyMapping.

(** ** The effect monad *)
Module PyFacts.
Import Py.

Lemma bind_ok {A B} (m : M A) (k : A -> M B) st a st1 t1 :
  m st = (Ok a, st1, t1) ->
  bind m k st = match k a st1 with (r, st2, t2) => (r, st2, t1 ++ t2) end.
Proof. intros H. unfold bind. rewrite H. reflexivity. Qed.

Lemma bind_raise {A B} (m : M A) (k : A -> M B) st e st1 t1 :
  m st = (Raise e, st1, t1) -> bind m k st = (Raise e, st1, t1).
Proof. intros H. unfold bind. rewrite H. reflexivity. Qed.

Lemma cache_set_get c v st : cache_get c (cache_set c v st) = Some v.
Proof. destruct c; reflexivity. Qed.

Lemma cache_set_other c c' v st :
  c <> c' -> cache_get c' (cache_set c v st) = cache_get c' st.
Proof. destruct c, c'; intros H; try reflexivity; congruence. Qed.

(** A memoised call that finds its memo filled returns it and calls
    nothing. *)
Lemma cache_hit c body st v :
  cache_get c st = Some v -> cache c body st = (Ok v, st, [Enumerate c]).
Proof.
  intros H. unfold cache, bind, emit, get_cache, ret. rewrite H. reflexivity.
Qed.

Lemma cache_miss c body st :
  cache_get c st = None ->
  cache c body st
  = match body st with
    | (Ok v, st1, t1) => (Ok v, cache_set c v st1, Enumerate c :: t1)
    | (Raise e, st1, t1) => (Raise e, st1, Enumerate c :: t1)
    end.
Proof.
  intros H. unfold cache, bind, emit, get_cache, put_cache, ret. rewrite H.
  destruct (body st) as [[[v|e] st1] t1]; simpl; [|reflexivity].
  rewrite app_nil_r. reflexivity.
Qed.

Lemma keeps_ret {A} (a : A) : keeps_memos (ret a).
Proof. intros st r st1 t1 [= _ <- _] c v H. exact H. Qed.

Lemma keeps_raise {A} e : keeps_memos (@raise A e).
Proof. intros st r st1 t1 [= _ <- _] c v H. exact H. Qed.

Lemma keeps_emit ev : keeps_memos (emit ev).
Proof. intros st r st1 t1 [= _ <- _] c v H. exact H. Qed.

Lemma keeps_lift {A} (r0 : result A) : keeps_memos (lift r0).
Proof. intros st r st1 t1 [= _ <- _] c v H. exact H. Qed.

Lemma keeps_bind {A B} (m : M A) (k : A -> M B) :
  keeps_memos m -> (forall a, keeps_memos (k a)) -> keeps_memos (bind m k).
Proof.
  intros Hm Hk st r st2 t. unfold bind.
  destruct (m st) as [[[a|e] st1] t1] eqn:Em.
  - destruct (k a st1) as [[r' st2'] t2] eqn:Ek. intros [= _ <- _] c v H.
    eapply Hk; [exact Ek|]. eapply Hm; [exact Em|exact H].
  - intros [= _ <- _] c v H. eapply Hm; [exact Em|exact H].
Qed.

Lemma keeps_try_except {A} (m : M A) (h : exn -> M A) :
  keeps_memos m -> (forall e, keeps_memos (h e)) ->
  keeps_memos (try_except m h).
Proof.
  intros Hm Hh st r st2 t. unfold try_except.
  destruct (m st) as [[[a|e] st1] t1] eqn:Em.
  - intros [= _ <- _] c v H. eapply Hm; [exact Em|exact H].
  - destruct (h e st1) as [[r' st2'] t2] eqn:Eh. intros [= _ <- _] c v H.
    eapply Hh; [exact Eh|]. eapply Hm; [exact Em|exact H].
Qed.

Lemma keeps_cache c body : keeps_memos body -> keeps_memos (cache c body).
Proof.
  intros Hb st r st2 t Hrun c' v' H.
  destruct (cache_get c st) as [v|] eqn:Ec.
  - rewrite (cache_hit _ _ _ _ Ec) in Hrun. injection Hrun as _ <- _. exact H.
  - rewrite (cache_miss _ _ _ Ec) in Hrun.
    destruct (body st) as [[[w|e] st1] t1] eqn:Eb; injection Hrun as _ <- _.
    + rewrite cache_set_other; [eapply Hb; [exact Eb|exact H]|].
      intros ->. congruence.
    + eapply Hb; [exact Eb|exact H].
Qed.

(** A memoised call that returns has its value in the memo. *)
Lemma cache_returns_memoised c body st v st1 t1 :
  keeps_memos body ->
  cache c body st = (Ok v, st1, t1) -> cache_get c st1 = Some v.
Proof.
  intros Hb Hrun. destruct (cache_get c st) as [w|] eqn:Ec.
  - rewrite (cache_hit _ _ _ _ Ec) in Hrun. injection Hrun as <- <- _. exact Ec.
  - rewrite (cache_miss _ _ _ Ec) in Hrun.
    destruct (body st) as [[[w|e] st'] t'] eqn:Eb; [|discriminate].
    injection Hrun as <- <- _. apply cache_set_get.
Qed.

End PyFacts.

(** ** The catalogs and the search of the host's files *)
Module CatalogFacts.
Import PyStr Py PyFacts Timezoneinfo Resolver.

(** [_read_system_timezones] answers with the host catalog, which it leaves
    memoised; when [zoneinfo.available_timezones()] raises, it raises the
    same and memoises nothing. *)
Lemma system_timezones_run env st system_timezones :
  host_catalog env st = Ok system_timezones ->
  _read_system_timezones env st
  = (Ok system_timezones,
     cache_set System system_timezones st,
     system_log st).
Proof.
  destruct st as [[v|] z]; unfold host_catalog; simpl; intros H.
  - injection H as ->. reflexivity.
  - unfold _read_system_timezones, cache, bind, emit, get_cache, put_cache,
      lift, ret. simpl. rewrite H. reflexivity.
Qed.

Lemma system_timezones_run_raises env st err :
  host_catalog env st = Raise err ->
  _read_system_timezones env st = (Raise err, st, system_log st).
Proof.
  destruct st as [[v|] z]; unfold host_catalog; simpl; intros H.
  - discriminate H.
  - unfold _read_system_timezones, cache, bind, emit, get_cache, put_cache,
      lift, ret. simpl. rewrite H. reflexivity.
Qed.

Lemma keeps_system_timezones env : keeps_memos (_read_system_timezones env).
Proof.
  apply keeps_cache, keeps_bind; [apply keeps_emit|].
  intros _. apply keeps_lift.
Qed.

Lemma keeps_files env package : keeps_memos (files env package).
Proof. apply keeps_bind; [apply keeps_emit|]. intros _. apply keeps_lift. Qed.

Lemma keeps_tzdata_timezones env : keeps_memos (_read_tzdata_timezones env).
Proof.
  apply keeps_cache, keeps_try_except.
  - apply keeps_bind; [apply keeps_files|]. intros dir.
    apply keeps_bind; [apply keeps_emit|]. intros _.
    apply keeps_bind; [apply keeps_lift|]. intros lines. apply keeps_ret.
  - intros []; first [apply keeps_ret | apply keeps_raise].
Qed.

(** The search never raises and never touches the caches; it tests the
    search paths in order, up to the first that is a file. *)
Lemma find_in_none env search_paths key st :
  Forall (fun p => isfile env (os_path_join p key) = false) search_paths ->
  find_in env search_paths key st = (Ok None, st, search_log search_paths key).
Proof.
  induction 1 as [|p rest Hp _ IH]; [reflexivity|].
  simpl. unfold bind at 1, emit. rewrite Hp, IH. reflexivity.
Qed.

Lemma find_in_first env before d after key st :
  Forall (fun p => isfile env (os_path_join p key) = false) before ->
  isfile env (os_path_join d key) = true ->
  find_in env (before ++ d :: after) key st
  = (Ok (Some (os_path_join d key)), st, search_log (before ++ [d]) key).
Proof.
  intros Hb Hd. induction Hb as [|p rest Hp _ IH]; simpl.
  - unfold bind, emit. rewrite Hd. reflexivity.
  - unfold bind at 1, emit. rewrite Hp, IH. reflexivity.
Qed.

(** Every search is of one of these two kinds. *)
Lemma find_in_cases env search_paths key :
  Forall (fun p => isfile env (os_path_join p key) = false) search_paths
  \/ exists before d after,
       search_paths = before ++ d :: after
       /\ Forall (fun p => isfile env (os_path_join p key) = false) before
       /\ isfile env (os_path_join d key) = true.
Proof.
  induction search_paths as [|p rest IH]; [left; constructor|].
  destruct (isfile env (os_path_join p key)) eqn:Hp.
  - right. exists [], p, rest. repeat split; [constructor|exact Hp].
  - destruct IH as [IH | (before & d & after & -> & Hb & Hd)].
    + left. constructor; assumption.
    + right. exists (p :: before), d, after.
      repeat split; [constructor; assumption|exact Hd].
Qed.

Lemma keeps_find_tzfile env key : keeps_memos (_find_tzfile env key).
Proof.
  unfold _find_tzfile. intros st r st1 t1 Hrun c v H.
  destruct (find_in_cases env (TZPATH env) key)
    as [Hn | (before & d & after & Hsplit & Hb & Hd)].
  - rewrite (find_in_none _ _ _ _ Hn) in Hrun. injection Hrun as _ <- _.
    exact H.
  - rewrite Hsplit, (find_in_first _ _ _ _ _ _ Hb Hd) in Hrun.
    injection Hrun as _ <- _. exact H.
Qed.

(** The [tzdata] enumeration neither reads nor writes the memo of the
    system catalog. *)
Lemma tzdata_timezones_frame env st v r st1 t1 :
  _read_tzdata_timezones env st = (r, st1, t1) ->
  _read_tzdata_timezones env (cache_set System v st)
  = (r, cache_set System v st1, t1).
Proof.
  destruct st as [s [z|]]; unfold _read_tzdata_timezones.
  - rewrite !(cache_hit Tzdata _ _ z) by reflexivity.
    intros [= <- <- <-]. reflexivity.
  - rewrite !cache_miss by reflexivity.
    unfold try_except, files, bind, emit, lift, ret, raise. simpl.
    destruct (resources_files env "tzdata") as [dir|[]]; simpl;
      try (intros [= <- <- <-]; reflexivity).
    destruct (open_text_readlines dir "zones") as [lines|[]]; simpl;
      intros [= <- <- <-]; reflexivity.
Qed.

End CatalogFacts.

(** ** The runs of [read] *)
Module ReadFacts.
Import PyStr PyStrFacts Py PyFacts Timezoneinfo Resolver CatalogFacts KeyMapping.

Section Runs.

Variable TimezoneInfo : Type.
Variable read_tzif : bytes -> result TimezoneInfo.

Abbreviation read := (read TimezoneInfo read_tzif).
Abbreviation fetch_outcome := (fetch_outcome TimezoneInfo read_tzif).

Abbreviation no_file env key :=
  (Forall (fun p => isfile env (os_path_join p key) = false)).

(** When the host catalog cannot be had, [read] raises what
    [zoneinfo.available_timezones()] raised, and memoises nothing. *)
Lemma read_run_catalog_raises env key st err :
  host_catalog env st = Raise err ->
  read env key st = (Raise err, st, system_log st).
Proof.
  intros Hsys. unfold Timezoneinfo.read.
  rewrite (bind_raise _ _ _ _ _ _ (system_timezones_run_raises env st _ Hsys)).
  reflexivity.
Qed.

(** A key outside the host catalog: [read] raises after the enumeration. *)
Lemma read_run_unknown env key st system_timezones :
  host_catalog env st = Ok system_timezones ->
  key ∉ system_timezones ->
  read env key st
  = (Raise (TimezoneInfoError
              ("Unable to find timezone in system timezones: " +:+ key)),
     cache_set System system_timezones st,
     system_log st).
Proof.
  intros Hsys Hk. unfold Timezoneinfo.read.
  rewrite (bind_ok _ _ _ _ _ _ (system_timezones_run env st _ Hsys)).
  rewrite (bool_decide_eq_false_2 _ Hk). cbn [negb]. unfold raise.
  rewrite app_nil_r.
  reflexivity.
Qed.

(** A key with a file below a search path: [read] opens and decodes the
    first such file. *)
Lemma read_run_host_file env key st system_timezones before d after :
  host_catalog env st = Ok system_timezones ->
  key ∈ system_timezones ->
  TZPATH env = before ++ d :: after ->
  no_file env key before ->
  isfile env (os_path_join d key) = true ->
  read env key st
  = (match open_read env (os_path_join d key) with
     | Ok data => read_tzif data
     | Raise err => Raise err
     end,
     cache_set System system_timezones st,
     system_log st ++ search_log (before ++ [d]) key
       ++ [OpenFile (os_path_join d key)]).
Proof.
  intros Hsys Hk Hpath Hb Hd. unfold Timezoneinfo.read.
  rewrite (bind_ok _ _ _ _ _ _ (system_timezones_run env st _ Hsys)).
  rewrite (bool_decide_eq_true_2 _ Hk). cbn [negb].
  unfold _find_tzfile. rewrite Hpath.
  rewrite (bind_ok _ _ _ _ _ _ (find_in_first env _ _ _ key _ Hb Hd)).
  unfold bind, emit, lift.
  destruct (open_read env (os_path_join d key)) as [data|err]; simpl.
  - destruct (read_tzif data); reflexivity.
  - reflexivity.
Qed.

(** A key of the host catalog without a file below any search path: [read]
    turns to the [tzdata] catalog and then to the package. *)
Lemma read_run_fallback env key st system_timezones r st2 t2 :
  host_catalog env st = Ok system_timezones ->
  key ∈ system_timezones ->
  no_file env key (TZPATH env) ->
  _read_tzdata_timezones env st = (r, st2, t2) ->
  read env key st
  = (let '(outcome, tail) :=
       match r with
       | Raise err => (Raise err, [])
       | Ok tzdata_timezones =>
           if bool_decide (key ∈ tzdata_timezones) then
             match _iana_key_to_resource key with
             | Ok (package, resource) =>
                 (fetch_outcome env key package resource,
                  fetch_log env package resource)
             | Raise err => (Raise err, [])
             end
           else
             (Raise (TimezoneInfoError ("Unable to find timezone: " +:+ key)),
              [])
       end in
     (outcome,
      cache_set System system_timezones st2,
      system_log st ++ search_log (TZPATH env) key ++ t2 ++ tail)).
Proof.
  intros Hsys Hk Hn Hz. unfold Timezoneinfo.read.
  rewrite (bind_ok _ _ _ _ _ _ (system_timezones_run env st _ Hsys)).
  rewrite (bool_decide_eq_true_2 _ Hk). cbn [negb].
  unfold _find_tzfile.
  rewrite (bind_ok _ _ _ _ _ _ (find_in_none env _ key _ Hn)).
  apply (tzdata_timezones_frame _ _ system_timezones) in Hz.
  destruct r as [tzd|err].
  - rewrite (bind_ok _ _ _ _ _ _ Hz).
    destruct (bool_decide (key ∈ tzd)); cbn [negb].
    + destruct (_iana_key_to_resource key) as [[package resource]|err].
      * unfold Resolver.fetch_outcome, fetch_log, try_except, files, bind,
          emit, lift, raise. simpl.
        destruct (resources_files env package) as [dir|[]]; simpl;
          try reflexivity.
        destruct (open_binary_read dir resource) as [data|[]]; simpl;
          try reflexivity.
        destruct (read_tzif data) as [info|[]]; reflexivity.
      * unfold bind, lift. simpl. rewrite app_nil_r. reflexivity.
    + unfold raise. simpl. rewrite app_nil_r. reflexivity.
  - rewrite (bind_raise _ _ _ _ _ _ Hz). simpl. rewrite app_nil_r.
    reflexivity.
Qed.

Lemma system_log_quiet st :
  Forall (fun ev => touches_host_files ev = false
                    /\ touches_tzdata ev = false) (system_log st).
Proof.
  unfold system_log. destruct (system_cache st); repeat constructor.
Qed.

Lemma search_log_quiet search_paths key :
  Forall (fun ev => touches_tzdata ev = false) (search_log search_paths key).
Proof. apply Forall_map, Forall_true. reflexivity. Qed.

(** C1: a key that the host catalog lacks makes [read] raise
    [TimezoneInfoError] with the message of the system-catalog check (the
    spec's UnknownTimezone), and nothing but the enumeration of the host
    catalog has been called by then: no file of the host is tested or
    opened, the tzdata catalog is not consulted and its memo is as it
    was. *)
Theorem read_rejects_key_outside_host_catalog env key st system_timezones :
  host_catalog env st = Ok system_timezones ->
  key ∉ system_timezones ->
  exists st1 t1,
    read env key st
    = (Raise (TimezoneInfoError
                ("Unable to find timezone in system timezones: " +:+ key)),
       st1, t1)
    /\ t1 = system_log st
    /\ Forall (fun ev => touches_host_files ev = false
                         /\ touches_tzdata ev = false) t1
    /\ tzdata_cache st1 = tzdata_cache st.
Proof.
  intros Hsys Hk. eexists _, _.
  split; [exact (read_run_unknown env key st _ Hsys Hk)|].
  split; [reflexivity|]. split; [apply system_log_quiet|reflexivity].
Qed.

(** C2: for a key of the host catalog, [read] tests
    [os.path.join(search_path, key)] over the search paths in order; at the
    first path that is a file it opens that file and returns what the
    decoder makes of its bytes.  The tzdata catalog is not consulted, no
    resource is fetched, and the tzdata memo is as it was.  The path tested
    is the search path followed by the key as it is, so the slashes of the
    key separate directories below the search path. *)
Theorem read_first_host_file_wins
    env key st system_timezones before d after :
  host_catalog env st = Ok system_timezones ->
  key ∈ system_timezones ->
  TZPATH env = before ++ d :: after ->
  no_file env key before ->
  isfile env (os_path_join d key) = true ->
  exists st1 t1,
    read env key st
    = (match open_read env (os_path_join d key) with
       | Ok data => read_tzif data
       | Raise err => Raise err
       end, st1, t1)
    /\ t1 = system_log st ++ search_log (before ++ [d]) key
              ++ [OpenFile (os_path_join d key)]
    /\ Forall (fun ev => touches_tzdata ev = false) t1
    /\ tzdata_cache st1 = tzdata_cache st
    /\ (startswith "/" key = false ->
        os_path_join d key = d +:+ key
        \/ os_path_join d key = d +:+ "/" +:+ key).
Proof.
  intros Hsys Hk Hpath Hb Hd. eexists _, _.
  split; [exact (read_run_host_file env key st _ before d after
                  Hsys Hk Hpath Hb Hd)|].
  split; [reflexivity|]. split; [|split; [reflexivity|]].
  - apply Forall_app. split.
    + eapply Forall_impl; [apply system_log_quiet|]. intros ev [_ H]. exact H.
    + apply Forall_app. split; [apply search_log_quiet|].
      repeat constructor.
  - apply startswith_slash_false_join.
Qed.

(** C3: a key of the host catalog without a file below any search path,
    and absent from the tzdata catalog (the set the enumeration returns in
    the state of the call), makes [read] raise [TimezoneInfoError] with the
    message "Unable to find timezone: " and the key (the spec's
    UnknownTimezone). *)
Theorem read_key_outside_tzdata_catalog
    env key st system_timezones tzdata_timezones st2 t2 :
  host_catalog env st = Ok system_timezones ->
  key ∈ system_timezones ->
  no_file env key (TZPATH env) ->
  _read_tzdata_timezones env st = (Ok tzdata_timezones, st2, t2) ->
  key ∉ tzdata_timezones ->
  read env key st
  = (Raise (TimezoneInfoError ("Unable to find timezone: " +:+ key)),
     cache_set System system_timezones st2,
     system_log st ++ search_log (TZPATH env) key ++ t2).
Proof.
  intros Hsys Hk Hn Hz Hout.
  rewrite (read_run_fallback env key st _ _ _ _ Hsys Hk Hn Hz).
  rewrite (bool_decide_eq_false_2 _ Hout), app_nil_r. reflexivity.
Qed.

(** Without the [tzdata] package the enumeration returns the empty set and
    memoises it. *)
Lemma tzdata_timezones_run_absent env st :
  resources_files env "tzdata" = Raise ModuleNotFoundError ->
  tzdata_cache st = None ->
  _read_tzdata_timezones env st
  = (Ok ∅, cache_set Tzdata ∅ st, [Enumerate Tzdata; ResourcesFiles "tzdata"]).
Proof.
  intros Habs Hmemo. unfold _read_tzdata_timezones.
  rewrite cache_miss by exact Hmemo.
  unfold try_except, files, bind, emit, lift, ret. rewrite Habs. reflexivity.
Qed.

(** C5: with the [tzdata] package not installed and nothing memoised, the
    enumeration of the tzdata catalog does not raise: it returns the empty
    set.  A call of [read] in that state is served from the host's file when
    there is one; only a key of the host catalog that has none, and so needs
    the package, makes [read] raise. *)
Theorem tzdata_absent_gives_empty_catalog env st :
  resources_files env "tzdata" = Raise ModuleNotFoundError ->
  tzdata_cache st = None ->
  _read_tzdata_timezones env st
  = (Ok ∅, cache_set Tzdata ∅ st, [Enumerate Tzdata; ResourcesFiles "tzdata"])
  /\ (forall key system_timezones before d after,
        host_catalog env st = Ok system_timezones ->
        key ∈ system_timezones ->
        TZPATH env = before ++ d :: after ->
        no_file env key before ->
        isfile env (os_path_join d key) = true ->
        exists st1 t1,
          read env key st
          = (match open_read env (os_path_join d key) with
             | Ok data => read_tzif data
             | Raise err => Raise err
             end, st1, t1))
  /\ (forall key system_timezones,
        host_catalog env st = Ok system_timezones ->
        key ∈ system_timezones ->
        no_file env key (TZPATH env) ->
        exists st1 t1,
          read env key st
          = (Raise (TimezoneInfoError ("Unable to find timezone: " +:+ key)),
             st1, t1)).
Proof.
  intros Habs Hmemo.
  pose proof (tzdata_timezones_run_absent env st Habs Hmemo) as Hz.
  split; [exact Hz|]. split.
  - intros key sys before d after Hsys Hk Hpath Hb Hd. eexists _, _.
    exact (read_run_host_file env key st _ before d after
             Hsys Hk Hpath Hb Hd).
  - intros key sys Hsys Hk Hn. eexists _, _.
    rewrite (read_run_fallback env key st _ _ _ _ Hsys Hk Hn Hz).
    rewrite bool_decide_eq_false_2 by apply not_elem_of_empty.
    reflexivity.
Qed.

(** C6: a key of both catalogs without a host file, whose package cannot
    be imported when the resource is fetched ([resources.files] raises
    [ModuleNotFoundError]), makes [read] raise [TimezoneInfoError] with the
    message "Unable to load tzdata module: " and the key (the spec's
    BundleUnavailable); that message is neither of the two messages of an
    unknown key. *)
Theorem read_tzdata_package_absent
    env key st system_timezones tzdata_timezones st2 t2 package resource :
  host_catalog env st = Ok system_timezones ->
  key ∈ system_timezones ->
  no_file env key (TZPATH env) ->
  _read_tzdata_timezones env st = (Ok tzdata_timezones, st2, t2) ->
  key ∈ tzdata_timezones ->
  _iana_key_to_resource key = Ok (package, resource) ->
  resources_files env package = Raise ModuleNotFoundError ->
  read env key st
  = (Raise (TimezoneInfoError ("Unable to load tzdata module: " +:+ key)),
     cache_set System system_timezones st2,
     system_log st ++ search_log (TZPATH env) key ++ t2
       ++ [ResourcesFiles package])
  /\ "Unable to load tzdata module: " +:+ key
     <> "Unable to find timezone in system timezones: " +:+ key
  /\ "Unable to load tzdata module: " +:+ key
     <> "Unable to find timezone: " +:+ key.
Proof.
  intros Hsys Hk Hn Hz Hin Hres Habs. split; [|split; simpl; discriminate].
  rewrite (read_run_fallback env key st _ _ _ _ Hsys Hk Hn Hz).
  rewrite (bool_decide_eq_true_2 _ Hin), Hres.
  unfold Resolver.fetch_outcome, fetch_log. rewrite Habs. reflexivity.
Qed.

(** C7: a key of both catalogs without a host file, whose package is there
    but whose resource file is missing (opening it raises
    [FileNotFoundError]), makes [read] raise [TimezoneInfoError] with the
    message "Unable to read tzdata file: " and the key (the spec's
    ResourceMissing). *)
Theorem read_tzdata_resource_missing
    env key st system_timezones tzdata_timezones st2 t2 package resource dir :
  host_catalog env st = Ok system_timezones ->
  key ∈ system_timezones ->
  no_file env key (TZPATH env) ->
  _read_tzdata_timezones env st = (Ok tzdata_timezones, st2, t2) ->
  key ∈ tzdata_timezones ->
  _iana_key_to_resource key = Ok (package, resource) ->
  resources_files env package = Ok dir ->
  open_binary_read dir resource = Raise FileNotFoundError ->
  read env key st
  = (Raise (TimezoneInfoError ("Unable to read tzdata file: " +:+ key)),
     cache_set System system_timezones st2,
     system_log st ++ search_log (TZPATH env) key ++ t2
       ++ [ResourcesFiles package; ResourceOpen package resource]).
Proof.
  intros Hsys Hk Hn Hz Hin Hres Hdir Hmiss.
  rewrite (read_run_fallback env key st _ _ _ _ Hsys Hk Hn Hz).
  rewrite (bool_decide_eq_true_2 _ Hin), Hres.
  unfold Resolver.fetch_outcome, fetch_log. rewrite Hdir, Hmiss. reflexivity.
Qed.

Lemma keeps_read env key : keeps_memos (read env key).
Proof.
  unfold Timezoneinfo.read.
  apply keeps_bind; [apply keeps_system_timezones|]. intros system_timezones.
  destruct (negb _); [apply keeps_raise|].
  apply keeps_bind; [apply keeps_find_tzfile|]. intros [tzfile|].
  - apply keeps_bind; [apply keeps_emit|]. intros _.
    apply keeps_bind; [apply keeps_lift|]. intros data. apply keeps_lift.
  - apply keeps_bind; [apply keeps_tzdata_timezones|]. intros tzdata_timezones.
    destruct (negb _); [apply keeps_raise|].
    apply keeps_bind; [apply keeps_lift|]. intros [package resource].
    apply keeps_try_except.
    + apply keeps_bind; [apply keeps_files|]. intros dir.
      apply keeps_bind; [apply keeps_emit|]. intros _.
      apply keeps_bind; [apply keeps_lift|]. intros data. apply keeps_lift.
    + intros []; apply keeps_raise.
Qed.

(** No call into the module empties or changes a memo. *)
Lemma perform_keeps_memo env cl st c v :
  cache_get c st = Some v ->
  cache_get c (fst (perform TimezoneInfo read_tzif env cl st)) = Some v.
Proof.
  intros H. destruct cl as [| |key|key]; simpl.
  - destruct (_read_system_timezones env st) as [[r st1] t1] eqn:E.
    exact (keeps_system_timezones env _ _ _ _ E _ _ H).
  - destruct (_read_tzdata_timezones env st) as [[r st1] t1] eqn:E.
    exact (keeps_tzdata_timezones env _ _ _ _ E _ _ H).
  - destruct (_find_tzfile env key st) as [[r st1] t1] eqn:E.
    exact (keeps_find_tzfile env key _ _ _ _ E _ _ H).
  - destruct (read env key st) as [[r st1] t1] eqn:E.
    exact (keeps_read env key _ _ _ _ E _ _ H).
Qed.

Lemma process_keeps_memo steps st c v :
  cache_get c st = Some v ->
  cache_get c (process TimezoneInfo read_tzif steps st) = Some v.
Proof.
  revert st. induction steps as [|[env cl] rest IH]; intros st H; simpl.
  - exact H.
  - apply IH, perform_keeps_memo, H.
Qed.

Lemma enumerate_hit c env st v :
  cache_get c st = Some v -> enumerate c env st = (Ok v, st, [Enumerate c]).
Proof. intros H. destruct c; apply cache_hit, H. Qed.

Lemma enumerate_returns_memoised c env st v st1 t1 :
  enumerate c env st = (Ok v, st1, t1) -> cache_get c st1 = Some v.
Proof.
  destruct c; unfold enumerate; intros Hrun.
  - unfold _read_system_timezones in Hrun.
    eapply cache_returns_memoised; [|exact Hrun].
    apply keeps_bind; [apply keeps_emit|]. intros _. apply keeps_lift.
  - unfold _read_tzdata_timezones in Hrun.
    eapply cache_returns_memoised; [|exact Hrun].
    apply keeps_try_except.
    + apply keeps_bind; [apply keeps_files|]. intros dir.
      apply keeps_bind; [apply keeps_emit|]. intros _.
      apply keeps_bind; [apply keeps_lift|]. intros lines. apply keeps_ret.
    + intros []; first [apply keeps_ret | apply keeps_raise].
Qed.

(** The calls of the system enumeration. *)
Lemma system_timezones_log env st :
  snd (_read_system_timezones env st) = system_log st.
Proof.
  destruct (host_catalog env st) as [v|e] eqn:Hsys.
  - rewrite (system_timezones_run env st v Hsys). reflexivity.
  - rewrite (system_timezones_run_raises env st e Hsys). reflexivity.
Qed.

(** The calls of the [tzdata] enumeration. *)
Lemma tzdata_timezones_log env st r st1 t1 :
  _read_tzdata_timezones env st = (r, st1, t1) ->
  t1 = Enumerate Tzdata ::
       match tzdata_cache st with
       | Some _ => []
       | None =>
           ResourcesFiles "tzdata" ::
           match resources_files env "tzdata" with
           | Ok _ => [ResourceOpen "tzdata" "zones"]
           | Raise _ => []
           end
       end.
Proof.
  unfold _read_tzdata_timezones. destruct (tzdata_cache st) as [z|] eqn:Hmemo.
  - rewrite (cache_hit Tzdata _ _ z) by exact Hmemo.
    intros [= _ _ <-]. reflexivity.
  - rewrite cache_miss by exact Hmemo.
    unfold try_except, files, bind, emit, lift, ret, raise. simpl.
    destruct (resources_files env "tzdata") as [dir|[]]; simpl;
      try (intros [= _ _ <-]; reflexivity).
    destruct (open_text_readlines dir "zones") as [lines|[]]; simpl;
      intros [= _ _ <-]; reflexivity.
Qed.

(** An enumeration of the tzdata catalog that raises found the memo empty
    and leaves the caches as they were; what it raises is what the import
    of [tzdata] or the reading of [zones] raised, and never the
    [ModuleNotFoundError] that the function catches. *)
Lemma tzdata_raise_cases env st err st1 t1 :
  _read_tzdata_timezones env st = (Raise err, st1, t1) ->
  st1 = st
  /\ tzdata_cache st = None
  /\ err <> ModuleNotFoundError
  /\ (resources_files env "tzdata" = Raise err
      \/ exists dir,
           resources_files env "tzdata" = Ok dir
           /\ open_text_readlines dir "zones" = Raise err).
Proof.
  unfold _read_tzdata_timezones. destruct (tzdata_cache st) as [z|] eqn:Hmemo.
  - rewrite (cache_hit Tzdata _ _ z) by exact Hmemo. discriminate.
  - rewrite cache_miss by exact Hmemo.
    unfold try_except, files, bind, emit, lift, ret, raise. simpl.
    destruct (resources_files env "tzdata") as [dir|e] eqn:Hdir; simpl.
    + destruct (open_text_readlines dir "zones") as [lines|e] eqn:Hlines;
        simpl; [discriminate|].
      destruct e; simpl; intros H; try discriminate H;
        injection H as <- <- _;
        (split; [reflexivity|]; split; [reflexivity|];
         split; [discriminate|]; right; exists dir; split;
         [reflexivity|exact Hlines]).
    + destruct e; simpl; intros H; try discriminate H;
        injection H as <- <- _;
        (split; [reflexivity|]; split; [reflexivity|];
         split; [discriminate|]; left; reflexivity).
Qed.

(** Conversely, what the import of [tzdata] or the reading of [zones]
    raises, other than [ModuleNotFoundError], the enumeration raises. *)
Lemma tzdata_run_files_raises env st err :
  tzdata_cache st = None ->
  resources_files env "tzdata" = Raise err ->
  err <> ModuleNotFoundError ->
  _read_tzdata_timezones env st
  = (Raise err, st, [Enumerate Tzdata; ResourcesFiles "tzdata"]).
Proof.
  intros Hmemo Hdir Herr. unfold _read_tzdata_timezones.
  rewrite cache_miss by exact Hmemo.
  unfold try_except, files, bind, emit, lift, ret, raise. simpl.
  rewrite Hdir. destruct err; simpl; try reflexivity. congruence.
Qed.

Lemma tzdata_run_zones_raises env st dir err :
  tzdata_cache st = None ->
  resources_files env "tzdata" = Ok dir ->
  open_text_readlines dir "zones" = Raise err ->
  err <> ModuleNotFoundError ->
  _read_tzdata_timezones env st
  = (Raise err, st,
     [Enumerate Tzdata; ResourcesFiles "tzdata";
      ResourceOpen "tzdata" "zones"]).
Proof.
  intros Hmemo Hdir Hlines Herr. unfold _read_tzdata_timezones.
  rewrite cache_miss by exact Hmemo.
  unfold try_except, files, bind, emit, lift, ret, raise. simpl.
  rewrite Hdir. simpl. rewrite Hlines.
  destruct err; simpl; try reflexivity. congruence.
Qed.

Lemma iana_package_not_tzdata key package resource :
  _iana_key_to_resource key = Ok (package, resource) ->
  String.eqb package "tzdata" = false.
Proof.
  destruct (iana_key_cases key) as (p & r & Hrun & _ & Hshape).
  rewrite Hrun. intros [= <- <-].
  destruct Hshape as [[_ ->] | (group & _ & ->)]; reflexivity.
Qed.

Lemma system_log_computes c st v :
  cache_get c st = Some v ->
  Forall (fun ev => computes c ev = false) (system_log st).
Proof.
  unfold system_log. destruct c; simpl; intros H.
  - rewrite H. repeat constructor.
  - destruct (system_cache st); repeat constructor.
Qed.

Lemma search_log_computes c search_paths key :
  Forall (fun ev => computes c ev = false) (search_log search_paths key).
Proof. apply Forall_map, Forall_true. intros p. destruct c; reflexivity. Qed.

Lemma tzdata_log_computes c env st v r st1 t1 :
  cache_get c st = Some v ->
  _read_tzdata_timezones env st = (r, st1, t1) ->
  Forall (fun ev => computes c ev = false) t1.
Proof.
  intros H Hrun. rewrite (tzdata_timezones_log _ _ _ _ _ Hrun).
  destruct c; simpl in H.
  - destruct (tzdata_cache st); [repeat constructor|].
    destruct (resources_files env "tzdata"); repeat constructor.
  - rewrite H. repeat constructor.
Qed.

Lemma fetch_log_computes c env package resource :
  String.eqb package "tzdata" = false ->
  Forall (fun ev => computes c ev = false) (fetch_log env package resource).
Proof.
  intros Hp. unfold fetch_log.
  destruct (resources_files env package), c; repeat constructor;
    simpl; assumption.
Qed.

Lemma read_log_computes c env key st v :
  cache_get c st = Some v ->
  Forall (fun ev => computes c ev = false) (snd (read env key st)).
Proof.
  intros H. destruct (host_catalog env st) as [sys|e] eqn:Hsys;
    [|rewrite (read_run_catalog_raises env key st e Hsys);
      exact (system_log_computes c st v H)].
  destruct (decide (key ∈ sys)) as [Hk|Hk].
  - destruct (find_in_cases env (TZPATH env) key)
      as [Hn | (before & d & after & Hpath & Hb & Hd)].
    + destruct (_read_tzdata_timezones env st) as [[r st2] t2] eqn:Hz.
      rewrite (read_run_fallback env key st _ _ _ _ Hsys Hk Hn Hz).
      assert (Hpre : forall tail,
                 Forall (fun ev => computes c ev = false) tail ->
                 Forall (fun ev => computes c ev = false)
                   (system_log st ++ search_log (TZPATH env) key
                      ++ t2 ++ tail)).
      { intros tail Htail. rewrite !Forall_app.
        split; [exact (system_log_computes c st v H)|].
        split; [apply search_log_computes|].
        split; [exact (tzdata_log_computes c env st v _ _ _ H Hz)|exact Htail]. }
      destruct r as [tzd|err]; [|apply Hpre; constructor].
      destruct (bool_decide (key ∈ tzd)); [|apply Hpre; constructor].
      destruct (_iana_key_to_resource key) as [[package resource]|err] eqn:Hres;
        [|apply Hpre; constructor].
      apply Hpre, fetch_log_computes, (iana_package_not_tzdata key _ _ Hres).
    + rewrite (read_run_host_file env key st _ before d after
                 Hsys Hk Hpath Hb Hd).
      cbn [snd]. rewrite !Forall_app.
      split; [exact (system_log_computes c st v H)|].
      split; [apply search_log_computes|].
      destruct c; repeat constructor.
  - rewrite (read_run_unknown env key st _ Hsys Hk).
    exact (system_log_computes c st v H).
Qed.

(** While a catalog is memoised, no call into the module computes it. *)
Lemma perform_log_computes env cl st c v :
  cache_get c st = Some v ->
  Forall (fun ev => computes c ev = false)
    (snd (perform TimezoneInfo read_tzif env cl st)).
Proof.
  intros H. destruct cl as [| |key|key]; simpl.
  - pose proof (system_timezones_log env st) as Hlog.
    destruct (_read_system_timezones env st) as [[r st1] t1].
    simpl in Hlog. subst t1. exact (system_log_computes c st v H).
  - destruct (_read_tzdata_timezones env st) as [[r st1] t1] eqn:E.
    exact (tzdata_log_computes c env st v _ _ _ H E).
  - unfold _find_tzfile.
    destruct (find_in_cases env (TZPATH env) key)
      as [Hn | (before & d & after & Hpath & Hb & Hd)].
    + rewrite (find_in_none _ _ _ _ Hn). apply search_log_computes.
    + rewrite Hpath, (find_in_first _ _ _ _ _ _ Hb Hd).
      apply search_log_computes.
  - pose proof (read_log_computes c env key st v H) as Hlog.
    destruct (read env key st) as [[r st1] t1]. exact Hlog.
Qed.

Lemma process_log_computes steps st c v :
  cache_get c st = Some v ->
  Forall (fun ev => computes c ev = false)
    (process_log TimezoneInfo read_tzif steps st).
Proof.
  revert st. induction steps as [|[env cl] rest IH]; intros st H; simpl.
  - constructor.
  - apply Forall_app. split; [exact (perform_log_computes env cl st c v H)|].
    apply IH, perform_keeps_memo, H.
Qed.

(** An enumeration that raises found its memo empty and leaves the caches
    as they were. *)
Lemma enumerate_raise_state c env st err st1 t1 :
  enumerate c env st = (Raise err, st1, t1) ->
  st1 = st /\ cache_get c st = None.
Proof.
  destruct c; unfold enumerate; intros Hrun.
  - destruct (host_catalog env st) as [v|e] eqn:Hsys.
    + rewrite (system_timezones_run env st v Hsys) in Hrun. discriminate Hrun.
    + rewrite (system_timezones_run_raises env st e Hsys) in Hrun.
      injection Hrun as _ <- _. split; [reflexivity|].
      unfold host_catalog in Hsys. simpl.
      destruct (system_cache st); [discriminate Hsys|reflexivity].
  - destruct (tzdata_raise_cases env st err st1 t1 Hrun) as (-> & Hmemo & _).
    split; [reflexivity|exact Hmemo].
Qed.

(** C8, as the code has it, for calls made one after another: once the
    enumeration of a catalog has returned, its set is memoised; whatever
    calls the process makes afterwards, in whatever environments, none of
    them computes that catalog again, and every later enumeration returns
    the same set, from the memo, calling nothing.  An enumeration that
    raises memoises nothing and leaves the caches as they were, so that the
    next enumeration computes again. *)
Theorem catalog_not_recomputed_once_returned c env st :
  (forall s st1 t1,
     enumerate c env st = (Ok s, st1, t1) ->
     forall steps,
       Forall (fun ev => computes c ev = false)
         (process_log TimezoneInfo read_tzif steps st1)
       /\ forall env',
            enumerate c env' (process TimezoneInfo read_tzif steps st1)
            = (Ok s, process TimezoneInfo read_tzif steps st1,
               [Enumerate c]))
  /\ (forall err st1 t1,
        enumerate c env st = (Raise err, st1, t1) ->
        st1 = st
        /\ cache_get c st1 = None
        /\ forall env' r st2 t2,
             enumerate c env' st1 = (r, st2, t2) ->
             exists ev, In ev t2 /\ computes c ev = true).
Proof.
  split.
  - intros s st1 t1 Hrun steps.
    pose proof (enumerate_returns_memoised c env st s st1 t1 Hrun) as Hmemo.
    split; [exact (process_log_computes steps st1 c s Hmemo)|].
    intros env'. apply enumerate_hit, process_keeps_memo, Hmemo.
  - intros err st1 t1 Hrun.
    destruct (enumerate_raise_state c env st err st1 t1 Hrun) as (-> & Hmemo).
    split; [reflexivity|]. split; [exact Hmemo|].
    intros env' r st2 t2 Hnext. destruct c; unfold enumerate in Hnext.
    + exists AvailableTimezones. split; [|reflexivity].
      pose proof (system_timezones_log env' st) as Hlog.
      rewrite Hnext in Hlog. simpl in Hlog. subst t2.
      unfold system_log. simpl in Hmemo. rewrite Hmemo.
      right. left. reflexivity.
    + exists (ResourcesFiles "tzdata"). split; [|reflexivity].
      rewrite (tzdata_timezones_log env' st r st2 t2 Hnext).
      simpl in Hmemo. rewrite Hmemo. right. left. reflexivity.
Qed.

(** What the handlers around the fetch make of an exception: one of the
    two messages of [read] for the two classes they catch, the exception
    itself for every other. *)
Lemma translate_cases key err :
  (exists msg, In msg read_messages
               /\ translate key err = TimezoneInfoError (msg +:+ key))
  \/ (translate key err = err
      /\ err <> ModuleNotFoundError /\ err <> FileNotFoundError).
Proof.
  destruct err; simpl;
    try (right; split; [reflexivity|split; discriminate]); left.
  - exists "Unable to load tzdata module: ". split; [|reflexivity].
    simpl. tauto.
  - exists "Unable to read tzdata file: ". split; [|reflexivity].
    simpl. tauto.
Qed.

Lemma translate_same key err :
  err <> ModuleNotFoundError -> err <> FileNotFoundError ->
  translate key err = err.
Proof. destruct err; simpl; intros H1 H2; congruence. Qed.

Lemma read_raise_cases env key st err st1 t1 :
  read env key st = (Raise err, st1, t1) ->
  (exists msg, In msg read_messages
               /\ err = TimezoneInfoError (msg +:+ key))
  \/ passed_on TimezoneInfo read_tzif env key st err.
Proof.
  destruct (host_catalog env st) as [sys|e] eqn:Hsys.
  2:{ rewrite (read_run_catalog_raises env key st e Hsys). intros [= <-].
      right. apply from_available_timezones; [|].
      - unfold host_catalog in Hsys.
        destruct (system_cache st); [discriminate Hsys|reflexivity].
      - unfold host_catalog in Hsys.
        destruct (system_cache st); [discriminate Hsys|exact Hsys]. }
  destruct (decide (key ∈ sys)) as [Hk|Hk].
  2:{ rewrite (read_run_unknown env key st _ Hsys Hk). intros [= <-]. left.
      exists "Unable to find timezone in system timezones: ".
      split; [simpl; tauto|reflexivity]. }
  assert (Hhost : known_to_host env st key)
    by (exists sys; split; assumption).
  destruct (find_in_cases env (TZPATH env) key)
    as [Hn | (before & d & after & Hpath & Hb & Hd)].
  - destruct (_read_tzdata_timezones env st) as [[r st2] t2] eqn:Hz.
    rewrite (read_run_fallback env key st _ _ _ _ Hsys Hk Hn Hz).
    destruct r as [tzd|e].
    + destruct (bool_decide (key ∈ tzd)) eqn:Hin.
      * apply bool_decide_eq_true_1 in Hin.
        assert (Htz : known_to_tzdata env st key)
          by (exists tzd, st2, t2; split; [exact Hz|exact Hin]).
        destruct (_iana_key_to_resource key) as [[package resource]|e]
          eqn:Hres.
        2:{ destruct (iana_key_cases key) as (p & r & Hrun & _). congruence. }
        unfold Resolver.fetch_outcome.
        destruct (resources_files env package) as [dir|e] eqn:Hdir.
        -- destruct (open_binary_read dir resource) as [data|e] eqn:Hopen.
           ++ destruct (read_tzif data) as [info|e] eqn:Hdec;
                [discriminate|].
              intros [= <-].
              destruct (translate_cases key e) as [Hown | (-> & Hne1 & Hne2)];
                [left; exact Hown|right].
              exact (from_read_tzif_of_resource _ _ _ _ _ _
                       package resource dir data
                       Hhost Hn Htz Hres Hdir Hopen Hdec Hne1 Hne2).
           ++ intros [= <-].
              destruct (translate_cases key e) as [Hown | (-> & Hne1 & Hne2)];
                [left; exact Hown|right].
              exact (from_resource _ _ _ _ _ _ package resource dir
                       Hhost Hn Htz Hres Hdir Hopen Hne1 Hne2).
        -- intros [= <-].
           destruct (translate_cases key e) as [Hown | (-> & Hne1 & Hne2)];
             [left; exact Hown|right].
           exact (from_files_package _ _ _ _ _ _ package resource
                    Hhost Hn Htz Hres Hdir Hne1 Hne2).
      * intros [= <-]. left. exists "Unable to find timezone: ".
        split; [simpl; tauto|reflexivity].
    + intros [= <-]. right.
      destruct (tzdata_raise_cases env st e st2 t2 Hz)
        as (_ & Hmemo & Herr & [Hdir | (dir & Hdir & Hlines)]).
      * exact (from_files_tzdata _ _ _ _ _ _ Hhost Hn Hmemo Hdir Herr).
      * exact (from_zones _ _ _ _ _ _ dir Hhost Hn Hmemo Hdir Hlines Herr).
  - assert (Hfile : first_host_file env key (os_path_join d key))
      by (exists before, d, after; repeat split; assumption).
    rewrite (read_run_host_file env key st _ before d after
               Hsys Hk Hpath Hb Hd).
    destruct (open_read env (os_path_join d key)) as [data|e] eqn:Hopen.
    + intros [= Hdec]. right.
      exact (from_read_tzif_of_file _ _ _ _ _ _ _ data
               Hhost Hfile Hopen Hdec).
    + intros [= <-]. right.
      exact (from_open _ _ _ _ _ _ _ Hhost Hfile Hopen).
Qed.

Lemma passed_on_is_raised env key st err :
  passed_on TimezoneInfo read_tzif env key st err ->
  exists st1 t1, read env key st = (Raise err, st1, t1).
Proof.
  intros [ Hmemo Havail
         | f (sys & Hsys & Hk) (before & d & after & Hpath & Hb & Hd & ->) Hopen
         | f data (sys & Hsys & Hk)
             (before & d & after & Hpath & Hb & Hd & ->) Hopen Hdec
         | (sys & Hsys & Hk) Hn Hmemo Hdir Herr
         | dir (sys & Hsys & Hk) Hn Hmemo Hdir Hlines Herr
         | package resource (sys & Hsys & Hk) Hn (tzd & st2 & t2 & Hz & Hin)
             Hres Hdir H1 H2
         | package resource dir (sys & Hsys & Hk) Hn
             (tzd & st2 & t2 & Hz & Hin) Hres Hdir Hopen H1 H2
         | package resource dir data (sys & Hsys & Hk) Hn
             (tzd & st2 & t2 & Hz & Hin) Hres Hdir Hopen Hdec H1 H2 ];
    eexists _, _.
  - apply read_run_catalog_raises. unfold host_catalog. rewrite Hmemo.
    exact Havail.
  - rewrite (read_run_host_file env key st _ before d after
               Hsys Hk Hpath Hb Hd), Hopen.
    reflexivity.
  - rewrite (read_run_host_file env key st _ before d after
               Hsys Hk Hpath Hb Hd), Hopen, Hdec.
    reflexivity.
  - rewrite (read_run_fallback env key st _ _ _ _ Hsys Hk Hn
               (tzdata_run_files_raises env st err Hmemo Hdir Herr)).
    reflexivity.
  - rewrite (read_run_fallback env key st _ _ _ _ Hsys Hk Hn
               (tzdata_run_zones_raises env st dir err Hmemo Hdir Hlines Herr)).
    reflexivity.
  - rewrite (read_run_fallback env key st _ _ _ _ Hsys Hk Hn Hz).
    rewrite (bool_decide_eq_true_2 _ Hin), Hres.
    unfold Resolver.fetch_outcome. rewrite Hdir, (translate_same key err H1 H2).
    reflexivity.
  - rewrite (read_run_fallback env key st _ _ _ _ Hsys Hk Hn Hz).
    rewrite (bool_decide_eq_true_2 _ Hin), Hres.
    unfold Resolver.fetch_outcome.
    rewrite Hdir, Hopen, (translate_same key err H1 H2).
    reflexivity.
  - rewrite (read_run_fallback env key st _ _ _ _ Hsys Hk Hn Hz).
    rewrite (bool_decide_eq_true_2 _ Hin), Hres.
    unfold Resolver.fetch_outcome.
    rewrite Hdir, Hopen, Hdec, (translate_same key err H1 H2).
    reflexivity.
Qed.

(** C9, as the code has it: an exception that leaves [read] is either a
    [TimezoneInfoError] whose message is one of the four messages of [read]
    followed by the key, or the exception of a callee that [read] lets
    through: of [zoneinfo.available_timezones()], of the opening or the
    decoding of the host file, of the reading of the tzdata catalog, or,
    inside the [try] of the fetch (the import of the package, the opening
    of the resource, the decoder), an exception that is neither
    [ModuleNotFoundError] nor [FileNotFoundError].  Conversely each of
    these exceptions, raised by that call on the way [read] takes, does
    leave [read] as it is. *)
Theorem read_raises_own_error_or_lets_through env key st :
  (forall err st1 t1,
     read env key st = (Raise err, st1, t1) ->
     (exists msg, In msg read_messages
                  /\ err = TimezoneInfoError (msg +:+ key))
     \/ passed_on TimezoneInfo read_tzif env key st err)
  /\ (forall err,
        passed_on TimezoneInfo read_tzif env key st err ->
        exists st1 t1, read env key st = (Raise err, st1, t1)).
Proof.
  split.
  - exact (read_raise_cases env key st).
  - exact (passed_on_is_raised env key st).
Qed.

End Runs.

End ReadFacts.

(** ** The properties on the sample hosts *)
Module Hosts.
Import PyStr Py Timezoneinfo Resolver Scenario KeyMapping ReadFacts.

Ltac by_evaluation := apply (bool_decide_unpack _); vm_compute; exact I.

Lemma iana_key_to_resource_round_trip_oslo :
  contains "." "Europe/Oslo" = false
  /\ exists package resource,
       _iana_key_to_resource "Europe/Oslo" = Ok (package, resource)
       /\ resource_to_key package resource = Some "Europe/Oslo"
       /\ (contains "/" "Europe/Oslo" = false ->
           package = "tzdata.zoneinfo" /\ resource = "Europe/Oslo").
Proof.
  split; [reflexivity|].
  apply (iana_key_to_resource_round_trip "Europe/Oslo"). reflexivity.
Defined.

Lemma read_rejects_fictional_place :
  host_catalog host_only empty_cache = Ok sample_zones
  /\ ("Fictional/Place" ∉ sample_zones)
  /\ exists st1 t1,
       read bytes raw_read_tzif host_only "Fictional/Place" empty_cache
       = (Raise (TimezoneInfoError
                   "Unable to find timezone in system timezones: Fictional/Place"),
          st1, t1)
       /\ t1 = system_log empty_cache
       /\ Forall (fun ev => touches_host_files ev = false
                            /\ touches_tzdata ev = false) t1
       /\ tzdata_cache st1 = tzdata_cache empty_cache.
Proof.
  assert (H : "Fictional/Place" ∉ sample_zones) by by_evaluation.
  split; [reflexivity|]. split; [exact H|].
  exact (read_rejects_key_outside_host_catalog bytes raw_read_tzif
           host_only "Fictional/Place" empty_cache sample_zones eq_refl H).
Defined.

Lemma read_oslo_from_second_search_path :
  exists st1 t1,
    read bytes raw_read_tzif host_only "Europe/Oslo" empty_cache
    = (Ok oslo_tzif, st1, t1)
    /\ t1 = [Enumerate System; AvailableTimezones;
             IsFile "/usr/share/zoneinfo/Europe/Oslo";
             IsFile "/usr/lib/zoneinfo/Europe/Oslo";
             OpenFile "/usr/lib/zoneinfo/Europe/Oslo"]
    /\ Forall (fun ev => touches_tzdata ev = false) t1
    /\ tzdata_cache st1 = None.
Proof.
  destruct (read_first_host_file_wins bytes raw_read_tzif
              host_only "Europe/Oslo" empty_cache sample_zones
              ["/usr/share/zoneinfo"] "/usr/lib/zoneinfo" [])
    as (st1 & t1 & Hrun & Hlog & Hquiet & Hmemo & _).
  - reflexivity.
  - by_evaluation.
  - reflexivity.
  - repeat constructor.
  - reflexivity.
  - exists st1, t1. repeat split; assumption.
Defined.

Lemma read_oslo_outside_tzdata_catalog :
  exists st1 t1,
    read bytes raw_read_tzif bundled "Europe/Oslo" empty_cache
    = (Raise (TimezoneInfoError "Unable to find timezone: Europe/Oslo"),
       st1, t1).
Proof.
  eexists _, _.
  eapply (read_key_outside_tzdata_catalog bytes raw_read_tzif
            bundled "Europe/Oslo" empty_cache sample_zones bundled_zones).
  - reflexivity.
  - by_evaluation.
  - repeat constructor.
  - vm_compute. reflexivity.
  - by_evaluation.
Defined.

Lemma tzdata_absent_on_host_only :
  _read_tzdata_timezones host_only empty_cache
  = (Ok ∅, cache_set Tzdata ∅ empty_cache,
     [Enumerate Tzdata; ResourcesFiles "tzdata"])
  /\ exists st1 t1,
       read bytes raw_read_tzif host_only "UTC" empty_cache
       = (Raise (TimezoneInfoError "Unable to find timezone: UTC"), st1, t1).
Proof.
  destruct (tzdata_absent_gives_empty_catalog bytes raw_read_tzif
              host_only empty_cache eq_refl eq_refl) as (Hz & _ & Hneeds).
  split; [exact Hz|].
  apply (Hneeds "UTC" sample_zones);
    [reflexivity|by_evaluation|repeat constructor].
Defined.

Lemma read_utc_after_uninstall :
  exists st1 t1,
    read bytes raw_read_tzif uninstalled "UTC" enumerated
    = (Raise (TimezoneInfoError "Unable to load tzdata module: UTC"),
       st1, t1).
Proof.
  eexists _, _.
  eapply (read_tzdata_package_absent bytes raw_read_tzif
            uninstalled "UTC" enumerated sample_zones bundled_zones).
  - reflexivity.
  - by_evaluation.
  - repeat constructor.
  - vm_compute. reflexivity.
  - by_evaluation.
  - reflexivity.
  - reflexivity.
Defined.

Lemma read_indianapolis_resource_missing :
  exists st1 t1,
    read bytes raw_read_tzif bundled "America/Indiana/Indianapolis" empty_cache
    = (Raise (TimezoneInfoError
                "Unable to read tzdata file: America/Indiana/Indianapolis"),
       st1, t1).
Proof.
  eexists _, _.
  eapply (read_tzdata_resource_missing bytes raw_read_tzif
            bundled "America/Indiana/Indianapolis" empty_cache
            sample_zones bundled_zones).
  - reflexivity.
  - by_evaluation.
  - repeat constructor.
  - vm_compute. reflexivity.
  - by_evaluation.
  - reflexivity.
  - reflexivity.
  - reflexivity.
Defined.

Lemma tzdata_catalog_survives_uninstall :
  enumerate Tzdata bundled empty_cache
  = (Ok bundled_zones, enumerated,
     [Enumerate Tzdata; ResourcesFiles "tzdata";
      ResourceOpen "tzdata" "zones"])
  /\ let steps := [(uninstalled, CallRead "UTC");
                   (host_only, CallReadSystemTimezones)] in
     Forall (fun ev => computes Tzdata ev = false)
       (process_log bytes raw_read_tzif steps enumerated)
     /\ forall env',
          enumerate Tzdata env' (process bytes raw_read_tzif steps enumerated)
          = (Ok bundled_zones, process bytes raw_read_tzif steps enumerated,
             [Enumerate Tzdata]).
Proof.
  assert (E : enumerate Tzdata bundled empty_cache
              = (Ok bundled_zones, enumerated,
                 [Enumerate Tzdata; ResourcesFiles "tzdata";
                  ResourceOpen "tzdata" "zones"]))
    by (vm_compute; reflexivity).
  split; [exact E|].
  exact (proj1 (catalog_not_recomputed_once_returned bytes raw_read_tzif
                  Tzdata bundled empty_cache)
           bundled_zones enumerated _ E _).
Defined.

(** On a host whose list of zones is missing and is put back later, the
    computation of the tzdata catalog starts three times in one process; on
    a host whose list of zones cannot be read at first, so does the
    computation of the system catalog. *)
Lemma catalog_computations_start_three_times :
  length (List.filter (computes Tzdata)
            (process_log bytes raw_read_tzif
               [(without_zones, CallReadTzdataTimezones);
                (without_zones, CallReadTzdataTimezones);
                (bundled, CallReadTzdataTimezones)]
               empty_cache)) = 3
  /\ length (List.filter (computes System)
               (process_log bytes raw_read_tzif
                  [(unreadable_zones, CallReadSystemTimezones);
                   (unreadable_zones, CallRead "UTC");
                   (bundled, CallReadSystemTimezones)]
                  empty_cache)) = 3.
Proof. split; vm_compute; reflexivity. Qed.

Lemma read_unreadable_file_lets_PermissionError_through :
  (exists msg, In msg read_messages
               /\ OtherException "PermissionError"
                  = TimezoneInfoError (msg +:+ "UTC"))
  \/ passed_on bytes raw_read_tzif unreadable_host_file "UTC" empty_cache
       (OtherException "PermissionError").
Proof.
  eapply (proj1 (read_raises_own_error_or_lets_through bytes raw_read_tzif
                   unreadable_host_file "UTC" empty_cache)).
  vm_compute. reflexivity.
Defined.

(** On a host whose own file of UTC cannot be read, [read] lets the
    [PermissionError] of [open] through: an exception that is not a
    [TimezoneInfoError] leaves [read]. *)
Lemma read_passes_on_PermissionError :
  fst (fst (read bytes raw_read_tzif unreadable_host_file "UTC" empty_cache))
  = Raise (OtherException "PermissionError")
  /\ is_TimezoneInfoError (OtherException "PermissionError") = false.
Proof. split; vm_compute; reflexivity. Qed.

End Hosts.

(** ** More on the strings: prefixes, replacement, stripping *)
Module MoreStrFacts.
Import PyStr PyStrFacts.

Lemma startswith_append p s : startswith p (p +:+ s) = true.
Proof.
  induction p as [|a p IH]; simpl; [reflexivity|].
  rewrite Ascii.eqb_refl, IH. reflexivity.
Qed.

(** Nothing of [old] is left once it has been replaced by another
    character. *)
Lemma replace_removes old new s :
  Ascii.eqb new old = false -> contains old (replace old new s) = false.
Proof.
  intros Hne. induction s as [|a s IH]; simpl; [reflexivity|].
  rewrite IH, orb_false_r.
  destruct (Ascii.eqb a old) eqn:Ha; [exact Hne|exact Ha].
Qed.

Lemma os_path_join_absolute a b :
  startswith "/" b = true -> os_path_join a b = b.
Proof. intros H. unfold os_path_join. rewrite H. reflexivity. Qed.

(** A string is trimmed at the left when it does not start with
    whitespace. *)
Lemma lstrip_head s :
  match lstrip s with
  | EmptyString => True
  | String a _ => isspace a = false
  end.
Proof.
  induction s as [|a s IH]; simpl; [exact I|].
  destruct (isspace a) eqn:Ha; [exact IH|exact Ha].
Qed.

Lemma lstrip_fixed s :
  match s with
  | EmptyString => True
  | String a _ => isspace a = false
  end -> lstrip s = s.
Proof. destruct s as [|a s]; simpl; [reflexivity|]. intros ->. reflexivity. Qed.

Lemma rstrip_head s :
  match s with
  | EmptyString => True
  | String a _ => isspace a = false
  end ->
  match rstrip s with
  | EmptyString => True
  | String a _ => isspace a = false
  end.
Proof.
  destruct s as [|a s]; simpl; [trivial|]. intros Ha.
  destruct (rstrip s); [rewrite Ha|]; exact Ha.
Qed.

Lemma rstrip_idempotent s : rstrip (rstrip s) = rstrip s.
Proof.
  induction s as [|a s IH]; simpl; [reflexivity|].
  destruct (rstrip s) as [|b t] eqn:Ht.
  - destruct (isspace a) eqn:Ha; simpl; [reflexivity|].
    rewrite Ha. reflexivity.
  - change (rstrip (String a (String b t))) with
      (match rstrip (String b t) with
       | EmptyString =>
           if isspace a then EmptyString else String a EmptyString
       | u => String a u
       end).
    rewrite IH. reflexivity.
Qed.

(** Stripping twice strips no more than stripping once. *)
Lemma strip_idempotent s : strip (strip s) = strip s.
Proof.
  unfold strip.
  rewrite (lstrip_fixed (rstrip (lstrip s)))
    by apply rstrip_head, lstrip_head.
  apply rstrip_idempotent.
Qed.

End MoreStrFacts.

(** ** More on the search, the mapping and the catalogs *)
Module MoreFacts.
Import PyStr PyStrFacts MoreStrFacts Py PyFacts Timezoneinfo Resolver.
Import CatalogFacts KeyMapping ReadFacts.

(** X1: [_find_tzfile] never raises and leaves the memos alone.  Either no
    search path holds the file, and it returns [None] after testing every
    search path once, in order; or it returns the path below the first
    search path that holds the file, having tested the paths up to that one
    and none after it. *)
Theorem find_tzfile_first_match env key st :
  (Forall (fun p => isfile env (os_path_join p key) = false) (TZPATH env)
   /\ _find_tzfile env key st
      = (Ok None, st, search_log (TZPATH env) key))
  \/ (exists before d after,
        TZPATH env = before ++ d :: after
        /\ Forall (fun p => isfile env (os_path_join p key) = false) before
        /\ isfile env (os_path_join d key) = true
        /\ _find_tzfile env key st
           = (Ok (Some (os_path_join d key)), st,
              search_log (before ++ [d]) key)).
Proof.
  unfold _find_tzfile.
  destruct (find_in_cases env (TZPATH env) key)
    as [Hn | (before & d & after & Hpath & Hb & Hd)].
  - left. split; [exact Hn|]. apply find_in_none, Hn.
  - right. exists before, d, after. repeat split; try assumption.
    rewrite Hpath. apply find_in_first; assumption.
Qed.

Lemma find_in_absolute env search_paths key st :
  startswith "/" key = true ->
  exists t,
    find_in env search_paths key st
    = (Ok (if isfile env key
           then match search_paths with [] => None | _ => Some key end
           else None), st, t)
    /\ Forall (fun ev => ev = IsFile key) t.
Proof.
  intros Habs. induction search_paths as [|p rest IH]; simpl.
  - exists []. split; [|constructor]. destruct (isfile env key); reflexivity.
  - rewrite (os_path_join_absolute p key Habs). unfold bind at 1, emit.
    destruct (isfile env key) eqn:Hfile.
    + exists [IsFile key]. split; [reflexivity|repeat constructor].
    + destruct IH as (t & -> & Ht). exists (IsFile key :: t).
      split; [reflexivity|constructor; [reflexivity|exact Ht]].
Qed.

(** X2: an absolute key makes the search forget the search paths:
    [os.path.join] returns the key itself, so the only path ever tested is
    the key, and [_find_tzfile] returns the key when it is a file (and
    there is a search path at all), [None] otherwise. *)
Theorem find_tzfile_absolute_key env key st :
  startswith "/" key = true ->
  (forall search_path, os_path_join search_path key = key)
  /\ exists t,
       _find_tzfile env key st
       = (Ok (if isfile env key
              then match TZPATH env with [] => None | _ => Some key end
              else None), st, t)
       /\ Forall (fun ev => ev = IsFile key) t.
Proof.
  intros Habs. split.
  - intros p. apply os_path_join_absolute, Habs.
  - apply find_in_absolute, Habs.
Qed.

(** X3: for every key the package returned is a dotted name below
    [tzdata.zoneinfo]: it starts with ["tzdata.zoneinfo"] and no slash is
    left in it, nor in the resource. *)
Theorem iana_key_to_resource_package_shape key :
  exists package resource,
    _iana_key_to_resource key = Ok (package, resource)
    /\ startswith "tzdata.zoneinfo" package = true
    /\ contains "/" package = false
    /\ contains "/" resource = false.
Proof.
  destruct (iana_key_cases key) as (package & resource & Hrun & Hres & Hshape).
  exists package, resource. split; [exact Hrun|].
  destruct Hshape as [[_ ->] | (group & _ & ->)].
  - split; [reflexivity|]. split; [reflexivity|exact Hres].
  - split; [reflexivity|]. split; [|exact Hres].
    rewrite contains_append, replace_removes by reflexivity. reflexivity.
Qed.

Lemma resource_to_key_inverts key :
  contains "." key = false ->
  exists package resource,
    _iana_key_to_resource key = Ok (package, resource)
    /\ resource_to_key package resource = Some key.
Proof.
  intros Hdot.
  destruct (iana_key_cases key) as (package & resource & Hrun & _ & Hshape).
  exists package, resource. split; [exact Hrun|].
  destruct Hshape as [[-> ->] | (group & -> & ->)].
  - apply resource_to_key_root.
  - rewrite contains_append in Hdot. apply orb_false_elim in Hdot as [Hg _].
    rewrite resource_to_key_below, (replace_back _ _ _ Hg). reflexivity.
Qed.

(** X4: on the keys without a dot the mapping is injective: two different
    keys never share their package and resource. *)
Theorem iana_key_to_resource_injective key1 key2 :
  contains "." key1 = false ->
  contains "." key2 = false ->
  key1 <> key2 ->
  _iana_key_to_resource key1 <> _iana_key_to_resource key2.
Proof.
  intros H1 H2 Hne Heq. apply Hne.
  destruct (resource_to_key_inverts key1 H1) as (p1 & r1 & Hrun1 & Hback1).
  destruct (resource_to_key_inverts key2 H2) as (p2 & r2 & Hrun2 & Hback2).
  rewrite Hrun1, Hrun2 in Heq. injection Heq as -> ->.
  rewrite Hback1 in Hback2. injection Hback2 as ->. reflexivity.
Qed.

(** X5: with the package there, its list of zones readable and nothing
    memoised, the tzdata catalog is the set of the stripped lines: a key is
    in it exactly when some line strips to it (a blank line puts the empty
    key in), and every key in it is free of surrounding whitespace. *)
Theorem tzdata_timezones_are_stripped_lines env st dir lines :
  resources_files env "tzdata" = Ok dir ->
  open_text_readlines dir "zones" = Ok lines ->
  tzdata_cache st = None ->
  exists zones,
    _read_tzdata_timezones env st
    = (Ok zones, cache_set Tzdata zones st,
       [Enumerate Tzdata; ResourcesFiles "tzdata";
        ResourceOpen "tzdata" "zones"])
    /\ (forall key, key ∈ zones <->
                    exists line, line ∈ lines /\ strip line = key)
    /\ (forall key, key ∈ zones -> strip key = key).
Proof.
  intros Hdir Hlines Hmemo. exists (list_to_set (map strip lines)).
  assert (Hin : forall key,
             key ∈ (list_to_set (map strip lines) : gset string) <->
             exists line, line ∈ lines /\ strip line = key).
  { intros key. rewrite elem_of_list_to_set, list_elem_of_fmap.
    split; intros (line & H1 & H2); exists line; split;
      first [assumption | symmetry; assumption]. }
  split; [|split; [exact Hin|]].
  - unfold _read_tzdata_timezones. rewrite cache_miss by exact Hmemo.
    unfold try_except, files, bind, emit, lift, ret.
    rewrite Hdir. simpl. rewrite Hlines. reflexivity.
  - intros key Hk. apply Hin in Hk as (line & _ & <-).
    apply strip_idempotent.
Qed.

End MoreFacts.

(** ** More on the memos and on the runs of [read] *)
Module MoreReadFacts.
Import PyStr PyStrFacts MoreStrFacts Py PyFacts Timezoneinfo Resolver.
Import CatalogFacts KeyMapping ReadFacts.

(** An enumeration of the tzdata catalog that raises found the memo empty
    and leaves the caches as they were; what it raises is never the
    [ModuleNotFoundError] it catches. *)
Lemma tzdata_raise_state env st err st1 t1 :
  _read_tzdata_timezones env st = (Raise err, st1, t1) ->
  st1 = st /\ tzdata_cache st = None /\ err <> ModuleNotFoundError.
Proof.
  unfold _read_tzdata_timezones. destruct (tzdata_cache st) as [z|] eqn:Hmemo.
  - rewrite (cache_hit Tzdata _ _ z) by exact Hmemo. discriminate.
  - rewrite cache_miss by exact Hmemo.
    unfold try_except, files, bind, emit, lift, ret, raise. simpl.
    destruct (resources_files env "tzdata") as [dir|e]; simpl.
    + destruct (open_text_readlines dir "zones") as [lines|e]; simpl;
        [discriminate|].
      destruct e; simpl; intros H; try discriminate H;
        injection H as <- <- _; repeat split; discriminate.
    + destruct e; simpl; intros H; try discriminate H;
        injection H as <- <- _; repeat split; discriminate.
Qed.

(** X6: an enumeration of the tzdata catalog that raises memoises nothing:
    the caches are as before, the memo is still empty, and the next
    enumeration, in whatever environment, starts the computation again.
    The exception is never [ModuleNotFoundError], which the function turns
    into the empty catalog. *)
Theorem tzdata_failure_is_not_memoised env st err st1 t1 :
  _read_tzdata_timezones env st = (Raise err, st1, t1) ->
  st1 = st
  /\ tzdata_cache st1 = None
  /\ err <> ModuleNotFoundError
  /\ forall env' r st2 t2,
       _read_tzdata_timezones env' st1 = (r, st2, t2) ->
       In (ResourcesFiles "tzdata") t2.
Proof.
  intros Hrun. destruct (tzdata_raise_state env st err st1 t1 Hrun)
    as (-> & Hmemo & Herr).
  repeat split; [exact Hmemo|exact Herr|].
  intros env' r st2 t2 Hnext.
  rewrite (tzdata_timezones_log env' st r st2 t2 Hnext), Hmemo.
  right. left. reflexivity.
Qed.

Section MoreRuns.

Variable TimezoneInfo : Type.
Variable read_tzif : bytes -> result TimezoneInfo.

Abbreviation read := (read TimezoneInfo read_tzif).
Abbreviation process := (process TimezoneInfo read_tzif).

Abbreviation no_file env key :=
  (Forall (fun p => isfile env (os_path_join p key) = false)).

(** X7: the empty catalog of a host without the [tzdata] package is
    memoised like any other.  Whatever the process does afterwards, a later
    [read] of a key without a host file raises "Unable to find timezone"
    without looking at the package again, also when the package has been
    installed in the meantime and lists the key. *)
Theorem empty_tzdata_catalog_is_memoised env0 st :
  resources_files env0 "tzdata" = Raise ModuleNotFoundError ->
  tzdata_cache st = None ->
  _read_tzdata_timezones env0 st
  = (Ok ∅, cache_set Tzdata ∅ st, [Enumerate Tzdata; ResourcesFiles "tzdata"])
  /\ forall steps env key system_timezones,
       host_catalog env (process steps (cache_set Tzdata ∅ st))
       = Ok system_timezones ->
       key ∈ system_timezones ->
       no_file env key (TZPATH env) ->
       exists st3,
         read env key (process steps (cache_set Tzdata ∅ st))
         = (Raise (TimezoneInfoError ("Unable to find timezone: " +:+ key)),
            st3,
            system_log (process steps (cache_set Tzdata ∅ st))
              ++ search_log (TZPATH env) key ++ [Enumerate Tzdata]).
Proof.
  intros Habs Hmemo.
  split; [exact (tzdata_timezones_run_absent env0 st Habs Hmemo)|].
  intros steps env key sys Hsys Hk Hn.
  assert (Hhit : _read_tzdata_timezones env (process steps (cache_set Tzdata ∅ st))
                 = (Ok ∅, process steps (cache_set Tzdata ∅ st),
                    [Enumerate Tzdata])).
  { apply cache_hit.
    apply (process_keeps_memo TimezoneInfo read_tzif steps _ Tzdata).
    reflexivity. }
  eexists.
  rewrite (read_run_fallback TimezoneInfo read_tzif env key _ _ _ _ _
             Hsys Hk Hn Hhit).
  rewrite bool_decide_eq_false_2 by apply not_elem_of_empty.
  rewrite app_nil_r. reflexivity.
Qed.

(** X8: what [read] returns was decoded from bytes of this key: the key is
    in the host catalog, and the record is what the decoder made either of
    the file below the first search path that holds one, or, when no search
    path holds one and the tzdata catalog has the key, of the resource that
    [_iana_key_to_resource] names. *)
Theorem read_returns_decoded_bytes env key st info st1 t1 :
  read env key st = (Ok info, st1, t1) ->
  (exists system_timezones,
     host_catalog env st = Ok system_timezones /\ key ∈ system_timezones)
  /\ exists data,
       read_tzif data = Ok info
       /\ ((exists before d after,
              TZPATH env = before ++ d :: after
              /\ no_file env key before
              /\ isfile env (os_path_join d key) = true
              /\ open_read env (os_path_join d key) = Ok data)
           \/ (no_file env key (TZPATH env)
               /\ (exists tzdata_timezones st2 t2,
                     _read_tzdata_timezones env st
                     = (Ok tzdata_timezones, st2, t2)
                     /\ key ∈ tzdata_timezones)
               /\ exists package resource dir,
                    _iana_key_to_resource key = Ok (package, resource)
                    /\ resources_files env package = Ok dir
                    /\ open_binary_read dir resource = Ok data)).
Proof.
  destruct (host_catalog env st) as [sys|e] eqn:Hsys;
    [|rewrite (read_run_catalog_raises _ _ env key st e Hsys); discriminate].
  destruct (decide (key ∈ sys)) as [Hk|Hk].
  - intros Hrun. split; [exists sys; split; [reflexivity|exact Hk]|].
    destruct (find_in_cases env (TZPATH env) key)
      as [Hn | (before & d & after & Hpath & Hb & Hd)].
    + destruct (_read_tzdata_timezones env st) as [[r st2] t2] eqn:Hz.
      rewrite (read_run_fallback _ _ env key st _ _ _ _ Hsys Hk Hn Hz) in Hrun.
      destruct r as [tzd|e]; [|discriminate Hrun].
      destruct (bool_decide (key ∈ tzd)) eqn:Hin; [|discriminate Hrun].
      apply bool_decide_eq_true_1 in Hin.
      destruct (_iana_key_to_resource key) as [[package resource]|e] eqn:Hres;
        [|discriminate Hrun].
      unfold fetch_outcome in Hrun.
      destruct (resources_files env package) as [dir|e] eqn:Hdir;
        [|discriminate Hrun].
      destruct (open_binary_read dir resource) as [data|e] eqn:Hopen;
        [|discriminate Hrun].
      destruct (read_tzif data) as [info'|e] eqn:Hdec; [|discriminate Hrun].
      injection Hrun as -> _ _. exists data. split; [exact Hdec|].
      right. split; [exact Hn|]. split.
      { exists tzd, st2, t2. split; [reflexivity|exact Hin]. }
      exists package, resource, dir. repeat split; assumption.
    + rewrite (read_run_host_file _ _ env key st _ before d after
                 Hsys Hk Hpath Hb Hd) in Hrun.
      destruct (open_read env (os_path_join d key)) as [data|e] eqn:Hopen;
        [|discriminate Hrun].
      injection Hrun as Hdec _ _. exists data. split; [exact Hdec|].
      left. exists before, d, after. repeat split; assumption.
  - rewrite (read_run_unknown _ _ env key st _ Hsys Hk). discriminate.
Qed.

(** X9: a key of both catalogs without a host file, whose resource is
    there: [read] imports the package, opens the resource and returns what
    the decoder makes of its bytes.  The decoder runs inside the [try], so
    an exception it raises goes through the same handlers as the fetch: a
    [ModuleNotFoundError] or [FileNotFoundError] of the decoder comes out as
    the corresponding [TimezoneInfoError], anything else as it is. *)
Theorem read_from_tzdata_package
    env key st system_timezones tzdata_timezones st2 t2
    package resource dir data :
  host_catalog env st = Ok system_timezones ->
  key ∈ system_timezones ->
  no_file env key (TZPATH env) ->
  _read_tzdata_timezones env st = (Ok tzdata_timezones, st2, t2) ->
  key ∈ tzdata_timezones ->
  _iana_key_to_resource key = Ok (package, resource) ->
  resources_files env package = Ok dir ->
  open_binary_read dir resource = Ok data ->
  read env key st
  = (match read_tzif data with
     | Ok info => Ok info
     | Raise ModuleNotFoundError =>
         Raise (TimezoneInfoError ("Unable to load tzdata module: " +:+ key))
     | Raise FileNotFoundError =>
         Raise (TimezoneInfoError ("Unable to read tzdata file: " +:+ key))
     | Raise err => Raise err
     end,
     cache_set System system_timezones st2,
     system_log st ++ search_log (TZPATH env) key ++ t2
       ++ [ResourcesFiles package; ResourceOpen package resource]).
Proof.
  intros Hsys Hk Hn Hz Hin Hres Hdir Hopen.
  rewrite (read_run_fallback _ _ env key st _ _ _ _ Hsys Hk Hn Hz).
  rewrite (bool_decide_eq_true_2 _ Hin), Hres.
  unfold fetch_outcome, fetch_log. rewrite Hdir, Hopen.
  destruct (read_tzif data) as [info|[]]; reflexivity.
Qed.

(** The state [read] leaves: the host catalog memoised when it could be
    had, the caches as they were when it could not. *)
Lemma read_memoises_host_catalog env key st r st1 t1 system_timezones :
  host_catalog env st = Ok system_timezones ->
  read env key st = (r, st1, t1) ->
  system_cache st1 = Some system_timezones.
Proof.
  intros Hsys Hrun.
  destruct (decide (key ∈ system_timezones)) as [Hk|Hk].
  - destruct (find_in_cases env (TZPATH env) key)
      as [Hn | (before & d & after & Hpath & Hb & Hd)].
    + destruct (_read_tzdata_timezones env st) as [[r2 st2] t2] eqn:Hz.
      rewrite (read_run_fallback _ _ env key st _ _ _ _ Hsys Hk Hn Hz) in Hrun.
      destruct (match r2 with Ok _ => _ | Raise _ => _ end) as [o tl].
      injection Hrun as _ <- _. reflexivity.
    + rewrite (read_run_host_file _ _ env key st _ before d after
                 Hsys Hk Hpath Hb Hd) in Hrun.
      injection Hrun as _ <- _. reflexivity.
  - rewrite (read_run_unknown _ _ env key st _ Hsys Hk) in Hrun.
    injection Hrun as _ <- _. reflexivity.
Qed.

(** X10: [read] changes no memo that was filled before the call.  When the
    host catalog can be had, [read] leaves it memoised whatever its own
    outcome, returned or raised; when [zoneinfo.available_timezones()]
    raises, [read] raises the same exception and leaves the caches as they
    were, with nothing memoised. *)
Theorem read_only_fills_memos env key st r st1 t1 :
  read env key st = (r, st1, t1) ->
  (forall c v, cache_get c st = Some v -> cache_get c st1 = Some v)
  /\ (forall system_timezones,
        host_catalog env st = Ok system_timezones ->
        system_cache st1 = Some system_timezones)
  /\ (forall err,
        host_catalog env st = Raise err ->
        r = Raise err /\ st1 = st /\ system_cache st1 = None).
Proof.
  intros Hrun. split; [exact (keeps_read _ _ env key st r st1 t1 Hrun)|].
  split.
  - intros sys Hsys.
    exact (read_memoises_host_catalog env key st r st1 t1 sys Hsys Hrun).
  - intros err Hsys.
    rewrite (read_run_catalog_raises _ _ env key st err Hsys) in Hrun.
    injection Hrun as <- <- _. split; [reflexivity|]. split; [reflexivity|].
    unfold host_catalog in Hsys.
    destruct (system_cache st); [discriminate Hsys|reflexivity].
Qed.

(** X11: for calls made one after another, the first call that gets the
    host catalog decides it for the process.  When a process with an empty
    system memo starts with [_read_system_timezones] or with [read] on a
    host whose catalog can be had, that catalog is the one memoised at the
    end of the process, whatever the later calls and the hosts they are made
    on.  When [zoneinfo.available_timezones()] raises in that first call,
    the call leaves nothing behind: the process goes on as if it had not
    been made. *)
Theorem first_call_fixes_host_catalog env c steps st :
  system_cache st = None ->
  c = CallReadSystemTimezones \/ (exists key, c = CallRead key) ->
  (forall system_timezones,
     available_timezones env = Ok system_timezones ->
     system_cache (process ((env, c) :: steps) st) = Some system_timezones)
  /\ (forall err,
        available_timezones env = Raise err ->
        process ((env, c) :: steps) st = process steps st).
Proof.
  intros Hmemo Hc. split.
  - intros sys Havail. simpl.
    apply (process_keeps_memo TimezoneInfo read_tzif steps _ System).
    assert (Hsys : host_catalog env st = Ok sys)
      by (unfold host_catalog; rewrite Hmemo; exact Havail).
    destruct Hc as [-> | (key & ->)]; simpl.
    + rewrite (system_timezones_run env st sys Hsys). reflexivity.
    + destruct (Timezoneinfo.read TimezoneInfo read_tzif env key st)
        as [[r st1] t1] eqn:Hrun.
      simpl.
      exact (read_memoises_host_catalog env key st r st1 t1 sys Hsys Hrun).
  - intros err Havail. simpl.
    assert (Hsys : host_catalog env st = Raise err)
      by (unfold host_catalog; rewrite Hmemo; exact Havail).
    destruct Hc as [-> | (key & ->)]; simpl.
    + rewrite (system_timezones_run_raises env st err Hsys). reflexivity.
    + rewrite (read_run_catalog_raises _ _ env key st err Hsys). reflexivity.
Qed.

(** X12: in an unchanged environment [read] can be repeated: called again
    in the state it left, it has the same outcome, returned or raised, and
    leaves that state as it is.  When the first call got the host catalog,
    the second does not ask the host for it again; when
    [zoneinfo.available_timezones()] raised in the first call, nothing was
    memoised and the second call asks again. *)
Theorem read_repeatable env key st r st1 t1 :
  read env key st = (r, st1, t1) ->
  exists t2,
    read env key st1 = (r, st1, t2)
    /\ (forall system_timezones,
          host_catalog env st = Ok system_timezones ->
          Forall (fun ev => computes System ev = false) t2)
    /\ (forall err,
          host_catalog env st = Raise err ->
          In AvailableTimezones t2).
Proof.
  intros Hrun.
  destruct (host_catalog env st) as [sys|e] eqn:Hsys.
  2:{ rewrite (read_run_catalog_raises _ _ env key st e Hsys) in Hrun.
      injection Hrun as <- <- <-. exists (system_log st).
      split; [exact (read_run_catalog_raises _ _ env key st e Hsys)|].
      split; [intros sys' [=]|]. intros _ _.
      unfold system_log. unfold host_catalog in Hsys.
      destruct (system_cache st); [discriminate Hsys|].
      right. left. reflexivity. }
  assert (Hmemo : system_cache st1 = Some sys)
    by exact (read_memoises_host_catalog env key st r st1 t1 sys Hsys Hrun).
  assert (Hagain : exists t2, read env key st1 = (r, st1, t2)).
  { destruct (decide (key ∈ sys)) as [Hk|Hk].
    - destruct (find_in_cases env (TZPATH env) key)
        as [Hn | (before & d & after & Hpath & Hb & Hd)].
      + destruct (_read_tzdata_timezones env st) as [[r2 st2] t2] eqn:Hz.
        rewrite (read_run_fallback _ _ env key st _ _ _ _ Hsys Hk Hn Hz)
          in Hrun.
        destruct r2 as [tzd|e].
        * pose proof (enumerate_returns_memoised Tzdata env st tzd st2 t2 Hz)
            as Htz.
          assert (Hhit : _read_tzdata_timezones env (cache_set System sys st2)
                         = (Ok tzd, cache_set System sys st2,
                            [Enumerate Tzdata]))
            by (apply cache_hit; exact Htz).
          destruct (if bool_decide (key ∈ tzd) then _ else _) as [o tl] eqn:Ho.
          injection Hrun as <- <- _. eexists.
          rewrite (read_run_fallback _ _ env key (cache_set System sys st2)
                     sys _ _ _ eq_refl Hk Hn Hhit), Ho.
          reflexivity.
        * destruct (tzdata_raise_cases env st e st2 t2 Hz) as (-> & _).
          pose proof (tzdata_timezones_frame env st sys _ _ _ Hz) as Hframe.
          injection Hrun as <- <- _. eexists.
          rewrite (read_run_fallback _ _ env key (cache_set System sys st)
                     sys _ _ _ eq_refl Hk Hn Hframe).
          reflexivity.
      + rewrite (read_run_host_file _ _ env key st _ before d after
                   Hsys Hk Hpath Hb Hd) in Hrun.
        injection Hrun as <- <- _. eexists.
        rewrite (read_run_host_file _ _ env key (cache_set System sys st)
                   sys before d after eq_refl Hk Hpath Hb Hd).
        reflexivity.
    - rewrite (read_run_unknown _ _ env key st _ Hsys Hk) in Hrun.
      injection Hrun as <- <- _. eexists.
      rewrite (read_run_unknown _ _ env key (cache_set System sys st)
                 sys eq_refl Hk).
      reflexivity. }
  destruct Hagain as (t2 & Hagain). exists t2. split; [exact Hagain|].
  split; [|intros err [=]]. intros _ _.
  pose proof (read_log_computes TimezoneInfo read_tzif System env key st1 sys
                Hmemo) as Hlog.
  rewrite Hagain in Hlog. exact Hlog.
Qed.

End MoreRuns.

End MoreReadFacts.

(** ** These properties on the sample hosts *)
Module MoreHosts.
Import PyStr Py Timezoneinfo Resolver Scenario MoreFacts MoreReadFacts.

Ltac evaluated := apply (bool_decide_unpack _); vm_compute; exact I.

Lemma find_tzfile_absolute_oslo :
  startswith "/" "/usr/lib/zoneinfo/Europe/Oslo" = true
  /\ exists t,
       _find_tzfile host_only "/usr/lib/zoneinfo/Europe/Oslo" empty_cache
       = (Ok (Some "/usr/lib/zoneinfo/Europe/Oslo"), empty_cache, t)
       /\ Forall (fun ev => ev = IsFile "/usr/lib/zoneinfo/Europe/Oslo") t.
Proof.
  split; [reflexivity|].
  destruct (find_tzfile_absolute_key host_only
              "/usr/lib/zoneinfo/Europe/Oslo" empty_cache eq_refl)
    as (_ & t & Hrun & Ht).
  exists t. split; [exact Hrun|exact Ht].
Defined.

Lemma oslo_and_rome_map_apart :
  _iana_key_to_resource "Europe/Oslo" <> _iana_key_to_resource "Europe/Rome".
Proof.
  apply (iana_key_to_resource_injective "Europe/Oslo" "Europe/Rome").
  - reflexivity.
  - reflexivity.
  - discriminate.
Defined.

Lemma tzdata_timezones_of_bundled :
  exists zones,
    _read_tzdata_timezones bundled empty_cache
    = (Ok zones, cache_set Tzdata zones empty_cache,
       [Enumerate Tzdata; ResourcesFiles "tzdata";
        ResourceOpen "tzdata" "zones"])
    /\ (forall key, key ∈ zones <->
          exists line,
            line ∈ [String.append "America/Indiana/Indianapolis"
                      (String "010" "");
                    String.append "UTC" (String "010" "")]
            /\ strip line = key)
    /\ (forall key, key ∈ zones -> strip key = key).
Proof.
  exact (tzdata_timezones_are_stripped_lines bundled empty_cache tzdata_dir
           _ eq_refl eq_refl eq_refl).
Defined.

Lemma tzdata_failure_without_zones :
  empty_cache = empty_cache
  /\ tzdata_cache empty_cache = None
  /\ FileNotFoundError <> ModuleNotFoundError
  /\ forall env' r st2 t2,
       _read_tzdata_timezones env' empty_cache = (r, st2, t2) ->
       In (ResourcesFiles "tzdata") t2.
Proof.
  apply (tzdata_failure_is_not_memoised without_zones empty_cache
           FileNotFoundError empty_cache
           [Enumerate Tzdata; ResourcesFiles "tzdata";
            ResourceOpen "tzdata" "zones"]).
  vm_compute. reflexivity.
Defined.

Lemma read_utc_after_late_install :
  _read_tzdata_timezones host_only empty_cache
  = (Ok ∅, cache_set Tzdata ∅ empty_cache,
     [Enumerate Tzdata; ResourcesFiles "tzdata"])
  /\ exists st3 t3,
       read bytes raw_read_tzif bundled "UTC"
         (process bytes raw_read_tzif [(bundled, CallReadSystemTimezones)]
            (cache_set Tzdata ∅ empty_cache))
       = (Raise (TimezoneInfoError "Unable to find timezone: UTC"), st3, t3).
Proof.
  destruct (empty_tzdata_catalog_is_memoised bytes raw_read_tzif
              host_only empty_cache eq_refl eq_refl) as (Hrun & Hlater).
  split; [exact Hrun|].
  destruct (Hlater [(bundled, CallReadSystemTimezones)] bundled "UTC"
              sample_zones)
    as (st3 & H3).
  - vm_compute. reflexivity.
  - evaluated.
  - repeat constructor.
  - eexists _, _. exact H3.
Defined.

Lemma read_oslo_returns_decoded_bytes :
  (exists system_timezones,
     host_catalog host_only empty_cache = Ok system_timezones
     /\ "Europe/Oslo" ∈ system_timezones)
  /\ exists data,
       raw_read_tzif data = Ok oslo_tzif
       /\ ((exists before d after,
              TZPATH host_only = before ++ d :: after
              /\ Forall (fun p => isfile host_only
                                    (os_path_join p "Europe/Oslo") = false)
                   before
              /\ isfile host_only (os_path_join d "Europe/Oslo") = true
              /\ open_read host_only (os_path_join d "Europe/Oslo") = Ok data)
           \/ (Forall (fun p => isfile host_only
                                  (os_path_join p "Europe/Oslo") = false)
                 (TZPATH host_only)
               /\ (exists tzdata_timezones st2 t2,
                     _read_tzdata_timezones host_only empty_cache
                     = (Ok tzdata_timezones, st2, t2)
                     /\ "Europe/Oslo" ∈ tzdata_timezones)
               /\ exists package resource dir,
                    _iana_key_to_resource "Europe/Oslo"
                    = Ok (package, resource)
                    /\ resources_files host_only package = Ok dir
                    /\ open_binary_read dir resource = Ok data)).
Proof.
  apply (read_returns_decoded_bytes bytes raw_read_tzif
           host_only "Europe/Oslo" empty_cache oslo_tzif
           (cache_set System sample_zones empty_cache)
           [Enumerate System; AvailableTimezones;
            IsFile "/usr/share/zoneinfo/Europe/Oslo";
            IsFile "/usr/lib/zoneinfo/Europe/Oslo";
            OpenFile "/usr/lib/zoneinfo/Europe/Oslo"]).
  vm_compute. reflexivity.
Defined.

Lemma read_utc_from_tzdata_package :
  read bytes raw_read_tzif bundled "UTC" empty_cache
  = (Ok utc_tzif,
     cache_set System sample_zones enumerated,
     system_log empty_cache ++ search_log (TZPATH bundled) "UTC"
       ++ [Enumerate Tzdata; ResourcesFiles "tzdata";
           ResourceOpen "tzdata" "zones"]
       ++ [ResourcesFiles "tzdata.zoneinfo";
           ResourceOpen "tzdata.zoneinfo" "UTC"]).
Proof.
  apply (read_from_tzdata_package bytes raw_read_tzif
           bundled "UTC" empty_cache sample_zones bundled_zones enumerated
           [Enumerate Tzdata; ResourcesFiles "tzdata";
            ResourceOpen "tzdata" "zones"]
           "tzdata.zoneinfo" "UTC" zoneinfo_dir utc_tzif).
  - reflexivity.
  - evaluated.
  - repeat constructor.
  - vm_compute. reflexivity.
  - evaluated.
  - reflexivity.
  - reflexivity.
  - reflexivity.
Defined.

Lemma read_utc_repeatable :
  exists t2,
    read bytes raw_read_tzif bundled "UTC"
      (cache_set System sample_zones enumerated)
    = (Ok utc_tzif, cache_set System sample_zones enumerated, t2)
    /\ (forall system_timezones,
          host_catalog bundled empty_cache = Ok system_timezones ->
          Forall (fun ev => computes System ev = false) t2)
    /\ (forall err,
          host_catalog bundled empty_cache = Raise err ->
          In AvailableTimezones t2).
Proof.
  apply (read_repeatable bytes raw_read_tzif bundled "UTC" empty_cache
           (Ok utc_tzif)
           (cache_set System sample_zones enumerated)
           [Enumerate System; AvailableTimezones;
            IsFile "/usr/share/zoneinfo/UTC";
            Enumerate Tzdata; ResourcesFiles "tzdata";
            ResourceOpen "tzdata" "zones";
            ResourcesFiles "tzdata.zoneinfo";
            ResourceOpen "tzdata.zoneinfo" "UTC"]).
  vm_compute. reflexivity.
Defined.

Lemma read_fills_host_memo_or_leaves_caches :
  system_cache (cache_set System sample_zones enumerated) = Some sample_zones
  /\ tzdata_cache (cache_set System sample_zones enumerated)
     = Some bundled_zones
  /\ fst (fst (read bytes raw_read_tzif unreadable_zones "UTC" enumerated))
     = Raise (OtherException "PermissionError")
  /\ snd (fst (read bytes raw_read_tzif unreadable_zones "UTC" enumerated))
     = enumerated.
Proof.
  destruct (read_only_fills_memos bytes raw_read_tzif
              host_only "Fictional/Place" enumerated
              (Raise (TimezoneInfoError
                        "Unable to find timezone in system timezones: Fictional/Place"))
              (cache_set System sample_zones enumerated)
              [Enumerate System; AvailableTimezones])
    as (Hkeep & Hfill & _); [vm_compute; reflexivity|].
  destruct (read bytes raw_read_tzif unreadable_zones "UTC" enumerated)
    as [[r st1] t1] eqn:Hrun.
  destruct (read_only_fills_memos bytes raw_read_tzif
              unreadable_zones "UTC" enumerated r st1 t1 Hrun)
    as (_ & _ & Hraise).
  destruct (Hraise (OtherException "PermissionError") eq_refl)
    as (-> & -> & _).
  split; [exact (Hfill sample_zones eq_refl)|].
  split; [exact (Hkeep Tzdata bundled_zones
                   ltac:(vm_compute; reflexivity))|].
  split; reflexivity.
Defined.

Lemma first_call_fixes_or_leaves_nothing :
  system_cache
    (process bytes raw_read_tzif
       [(without_zones, CallRead "UTC"); (bundled, CallReadSystemTimezones);
        (bundled, CallRead "Europe/Oslo")]
       empty_cache)
  = Some {[ "UTC" ]}
  /\ process bytes raw_read_tzif
       [(unreadable_zones, CallRead "UTC");
        (bundled, CallReadSystemTimezones)]
       empty_cache
     = process bytes raw_read_tzif [(bundled, CallReadSystemTimezones)]
         empty_cache.
Proof.
  split.
  - apply (proj1 (first_call_fixes_host_catalog bytes raw_read_tzif
                    without_zones (CallRead "UTC") _ empty_cache eq_refl
                    (or_intror (ex_intro _ "UTC" eq_refl)))).
    reflexivity.
  - apply (proj2 (first_call_fixes_host_catalog bytes raw_read_tzif
                    unreadable_zones (CallRead "UTC") _ empty_cache eq_refl
                    (or_intror (ex_intro _ "UTC" eq_refl)))
             (OtherException "PermissionError")).
    reflexivity.
Defined.

End MoreHosts.
